(** * Voice assistant dashboard: the synchronization client of [app.js]

    A shallow embedding of the [VoiceAssistantUI] class: the fields of
    [this], the DOM elements it reads and writes, and its methods as
    computations over that state.  An [async] method awaits the answer to
    its request (and, after some actions, the answer to the device refresh
    that follows); these answers are arguments of the embedded method, so a
    method is a function of the answers and of the state it runs from.  The
    client is single threaded and a method is taken as one uninterrupted
    run: handlers that the browser could schedule while a request is in
    flight are separate runs, before or after.  What a method does to the
    outside (HTTP requests, console output, notifications, timers) is
    recorded as a trace of effects. *)

From Stdlib Require Import String Ascii List Bool Arith PeanoNat ZArith Lia.
Import ListNotations.
Local Open Scope list_scope.
Local Open Scope string_scope.

(** ** JavaScript runtime helpers *)

Module JS.

(** Characters are code units below 256. *)
Definition nl : string := String "010"%char EmptyString.
Definition dq : string := String "034"%char EmptyString.

(** [q s] is [s] between double quotes, as in an HTML attribute. *)
Definition q (s : string) : string := dq ++ s ++ dq.

Fixpoint spaces (n : nat) : string :=
  match n with
  | O => EmptyString
  | S k => String " "%char (spaces k)
  end.

(** A line of a template literal: the line break, the indentation of the
    source line, and its text. *)
Definition ln (indent : nat) (text : string) : string :=
  nl ++ spaces indent ++ text.

(** [Array.prototype.join('')]. *)
Definition join (parts : list string) : string :=
  String.concat EmptyString parts.

(** Truthiness of a string: [if (s)], [!s]. *)
Definition truthy (s : string) : bool :=
  match s with
  | EmptyString => false
  | String _ _ => true
  end.

(** WhiteSpace and LineTerminator code units below 256:
    TAB, LF, VT, FF, CR, SP and NBSP. *)
Definition isWhiteSpace (c : ascii) : bool :=
  let n := nat_of_ascii c in
  ((9 <=? n)%nat && (n <=? 13)%nat) || (n =? 32)%nat || (n =? 160)%nat.

Fixpoint trimStart (s : string) : string :=
  match s with
  | EmptyString => EmptyString
  | String c r => if isWhiteSpace c then trimStart r else s
  end.

(** Drops trailing white space: a character is kept when it is not white
    space or when something is kept after it. *)
Fixpoint trimEnd (s : string) : string :=
  match s with
  | EmptyString => EmptyString
  | String c r =>
      match trimEnd r with
      | EmptyString => if isWhiteSpace c then EmptyString
                       else String c EmptyString
      | kept => String c kept
      end
  end.

(** [String.prototype.trim]. *)
Definition trim (s : string) : string := trimEnd (trimStart s).

(** [Array.prototype.slice(start)] with one argument: a negative [start]
    counts from the end, and the start index is clamped to the array. *)
Definition slice {A : Type} (start : Z) (l : list A) : list A :=
  let len := Z.of_nat (length l) in
  let k := if (start <? 0)%Z then Z.max (len + start) 0
           else Z.min start len in
  skipn (Z.to_nat k) l.

(** [[...new Set(xs)]]: the distinct elements of [xs], each at the place
    of its first occurrence. *)
Fixpoint distinct_from (seen : list string) (xs : list string) : list string :=
  match xs with
  | [] => []
  | x :: r =>
      if existsb (String.eqb x) seen then distinct_from seen r
      else x :: distinct_from (x :: seen) r
  end.

Definition distinct (xs : list string) : list string := distinct_from [] xs.

(** [Object.values] of an object given by its own properties in
    enumeration order. *)
Definition Object_values {A : Type} (obj : list (string * A)) : list A :=
  map snd obj.

(** [obj[k] = v] on an object given by its members: the member named [k]
    gets the new value where it stands, and is added at the end when there
    is none. *)
Fixpoint set_property (k v : string) (obj : list (string * string))
    : list (string * string) :=
  match obj with
  | [] => [(k, v)]
  | (k', v') :: rest =>
      if String.eqb k' k then (k', v) :: rest
      else (k', v') :: set_property k v rest
  end.

(** The object literal [{ ...base, ...props }]: the members of [props] are
    set on [base] one after the other. *)
Definition spread (base props : list (string * string)) : list (string * string) :=
  fold_left (fun obj member => set_property (fst member) (snd member) obj)
            props base.

(** The value of the member named [k] in a list of members; as in an object
    literal or a JSON text, the last member of that name counts. *)
Fixpoint get (k : string) (members : list (string * string)) : option string :=
  match members with
  | [] => None
  | (k', v) :: rest =>
      match get k rest with
      | Some w => Some w
      | None => if String.eqb k' k then Some v else None
      end
  end.

End JS.

(** ** Data model *)

(** A JSON number, kept as the literal the server sent; the client only
    hands it to the date formatter. *)
Inductive JSNumber : Type :=
| js_number (literal : string).

Record Device : Type := mkDevice {
  id : string;
  name : string;
  device_type : string;
  location : string;
  status : string
}.

(** [data] is [None] when the event carries no [data] member (or [null]);
    otherwise it lists the members of the object, values in serialized
    form. *)
Record Event : Type := mkEvent {
  type : string;
  message : string;
  data : option (list (string * string));
  timestamp : JSNumber
}.

Record Status : Type := mkStatus {
  is_active : bool;
  is_listening : bool
}.

(** ** Responses of the HTTP endpoints *)

(** A parsed response body: [{success: true, ...payload}] or
    [{success: false, message}]. *)
Inductive Response (P : Type) : Type :=
| ok (payload : P)
| error_response (msg : string).
Arguments ok {P} payload.
Arguments error_response {P} msg.

(** How an awaited request can throw: [fetch] rejects (network down, timed
    out), or [response.json()] rejects (no parsable body). *)
Inductive NetworkFailure : Type :=
| fetch_rejected
| json_rejected.

Inductive Fetched (P : Type) : Type :=
| failed (f : NetworkFailure)
| resolved (r : Response P).
Arguments failed {P} f.
Arguments resolved {P} r.

(** ** DOM elements *)

Record Button : Type := mkButton {
  disabled : bool;
  (** class name of the [<i>] child, when the button has one *)
  icon : option string
}.

Inductive ButtonId : Type := StartBtn | StopBtn | TestBtn.

(** A [<select>]: its option values in tree order, the index of the
    selected option, whether it is a drop-down (no [multiple], display size
    1) and its markup. *)
Record Select : Type := mkSelect {
  options : list string;
  selectedIndex : option nat;
  dropdown : bool;
  innerHTML : string
}.

(** [select.value]: the value of the selected option, the empty string
    when none is selected. *)
Definition value (sel : Select) : string :=
  match selectedIndex sel with
  | Some i => nth i (options sel) EmptyString
  | None => EmptyString
  end.

Definition option_html (o : string * string) : string :=
  "<option value=" ++ JS.q (fst o) ++ ">" ++ snd o ++ "</option>".

(** Assigning [select.innerHTML] a run of [<option value=v>label</option>]
    elements: the old options are removed with their selectedness, the new
    ones are inserted, none of them carrying a [selected] attribute, and the
    selectedness is reset: a drop-down selects its first option, a list box
    selects nothing.  Interpolated values and labels are taken as text
    without markup of their own. *)
Definition set_options (opts : list (string * string)) (sel : Select) : Select :=
  {| options := map fst opts;
     selectedIndex :=
       if dropdown sel
       then match opts with [] => None | _ :: _ => Some 0 end
       else None;
     dropdown := dropdown sel;
     innerHTML := JS.join (map option_html opts) |}.

(** ** The client: fields of [this] and the elements it holds *)

Record UI : Type := mkUI {
  isAssistantActive : bool;
  devices : list Device;
  events : list Event;
  startBtn : Button;
  stopBtn : Button;
  testBtn : Button;
  (** [wakeWordsSelect.value], [modelSelect.value], [testCommandInput.value] *)
  wakeWordsSelect : string;
  modelSelect : string;
  testCommandInput : string;
  (** [statusIndicator.className], [statusText.textContent] *)
  statusIndicator : string;
  statusText : string;
  (** [innerHTML] of the three rendered regions *)
  transcriptionDisplay : string;
  devicesGrid : string;
  activityLog : string;
  locationFilter : Select;
  typeFilter : Select;
  (** [eventFilter.value]; its options are fixed by the page *)
  eventFilter : string;
  (** whether the modal carries the class [show] *)
  deviceModal : bool;
  addDeviceModal : bool
}.

(** Assignments to one field or element property; the rest of the state is
    carried over. *)

Definition set_isAssistantActive (v : bool) (s : UI) : UI :=
  mkUI v (devices s) (events s) (startBtn s) (stopBtn s) (testBtn s)
    (wakeWordsSelect s) (modelSelect s) (testCommandInput s)
    (statusIndicator s) (statusText s) (transcriptionDisplay s)
    (devicesGrid s) (activityLog s) (locationFilter s) (typeFilter s)
    (eventFilter s) (deviceModal s) (addDeviceModal s).

Definition set_devices (v : list Device) (s : UI) : UI :=
  mkUI (isAssistantActive s) v (events s) (startBtn s) (stopBtn s)
    (testBtn s) (wakeWordsSelect s) (modelSelect s) (testCommandInput s)
    (statusIndicator s) (statusText s) (transcriptionDisplay s)
    (devicesGrid s) (activityLog s) (locationFilter s) (typeFilter s)
    (eventFilter s) (deviceModal s) (addDeviceModal s).

Definition set_events (v : list Event) (s : UI) : UI :=
  mkUI (isAssistantActive s) (devices s) v (startBtn s) (stopBtn s)
    (testBtn s) (wakeWordsSelect s) (modelSelect s) (testCommandInput s)
    (statusIndicator s) (statusText s) (transcriptionDisplay s)
    (devicesGrid s) (activityLog s) (locationFilter s) (typeFilter s)
    (eventFilter s) (deviceModal s) (addDeviceModal s).

Definition set_startBtn (v : Button) (s : UI) : UI :=
  mkUI (isAssistantActive s) (devices s) (events s) v (stopBtn s)
    (testBtn s) (wakeWordsSelect s) (modelSelect s) (testCommandInput s)
    (statusIndicator s) (statusText s) (transcriptionDisplay s)
    (devicesGrid s) (activityLog s) (locationFilter s) (typeFilter s)
    (eventFilter s) (deviceModal s) (addDeviceModal s).

Definition set_stopBtn (v : Button) (s : UI) : UI :=
  mkUI (isAssistantActive s) (devices s) (events s) (startBtn s) v
    (testBtn s) (wakeWordsSelect s) (modelSelect s) (testCommandInput s)
    (statusIndicator s) (statusText s) (transcriptionDisplay s)
    (devicesGrid s) (activityLog s) (locationFilter s) (typeFilter s)
    (eventFilter s) (deviceModal s) (addDeviceModal s).

Definition set_testBtn (v : Button) (s : UI) : UI :=
  mkUI (isAssistantActive s) (devices s) (events s) (startBtn s) (stopBtn s)
    v (wakeWordsSelect s) (modelSelect s) (testCommandInput s)
    (statusIndicator s) (statusText s) (transcriptionDisplay s)
    (devicesGrid s) (activityLog s) (locationFilter s) (typeFilter s)
    (eventFilter s) (deviceModal s) (addDeviceModal s).

Definition set_testCommandInput (v : string) (s : UI) : UI :=
  mkUI (isAssistantActive s) (devices s) (events s) (startBtn s) (stopBtn s)
    (testBtn s) (wakeWordsSelect s) (modelSelect s) v (statusIndicator s)
    (statusText s) (transcriptionDisplay s) (devicesGrid s) (activityLog s)
    (locationFilter s) (typeFilter s) (eventFilter s) (deviceModal s)
    (addDeviceModal s).

Definition set_statusIndicator (v : string) (s : UI) : UI :=
  mkUI (isAssistantActive s) (devices s) (events s) (startBtn s) (stopBtn s)
    (testBtn s) (wakeWordsSelect s) (modelSelect s) (testCommandInput s) v
    (statusText s) (transcriptionDisplay s) (devicesGrid s) (activityLog s)
    (locationFilter s) (typeFilter s) (eventFilter s) (deviceModal s)
    (addDeviceModal s).

Definition set_statusText (v : string) (s : UI) : UI :=
  mkUI (isAssistantActive s) (devices s) (events s) (startBtn s) (stopBtn s)
    (testBtn s) (wakeWordsSelect s) (modelSelect s) (testCommandInput s)
    (statusIndicator s) v (transcriptionDisplay s) (devicesGrid s)
    (activityLog s) (locationFilter s) (typeFilter s) (eventFilter s)
    (deviceModal s) (addDeviceModal s).

Definition set_transcriptionDisplay (v : string) (s : UI) : UI :=
  mkUI (isAssistantActive s) (devices s) (events s) (startBtn s) (stopBtn s)
    (testBtn s) (wakeWordsSelect s) (modelSelect s) (testCommandInput s)
    (statusIndicator s) (statusText s) v (devicesGrid s) (activityLog s)
    (locationFilter s) (typeFilter s) (eventFilter s) (deviceModal s)
    (addDeviceModal s).

Definition set_devicesGrid (v : string) (s : UI) : UI :=
  mkUI (isAssistantActive s) (devices s) (events s) (startBtn s) (stopBtn s)
    (testBtn s) (wakeWordsSelect s) (modelSelect s) (testCommandInput s)
    (statusIndicator s) (statusText s) (transcriptionDisplay s) v
    (activityLog s) (locationFilter s) (typeFilter s) (eventFilter s)
    (deviceModal s) (addDeviceModal s).

Definition set_activityLog (v : string) (s : UI) : UI :=
  mkUI (isAssistantActive s) (devices s) (events s) (startBtn s) (stopBtn s)
    (testBtn s) (wakeWordsSelect s) (modelSelect s) (testCommandInput s)
    (statusIndicator s) (statusText s) (transcriptionDisplay s)
    (devicesGrid s) v (locationFilter s) (typeFilter s) (eventFilter s)
    (deviceModal s) (addDeviceModal s).

Definition set_locationFilter (v : Select) (s : UI) : UI :=
  mkUI (isAssistantActive s) (devices s) (events s) (startBtn s) (stopBtn s)
    (testBtn s) (wakeWordsSelect s) (modelSelect s) (testCommandInput s)
    (statusIndicator s) (statusText s) (transcriptionDisplay s)
    (devicesGrid s) (activityLog s) v (typeFilter s) (eventFilter s)
    (deviceModal s) (addDeviceModal s).

Definition set_typeFilter (v : Select) (s : UI) : UI :=
  mkUI (isAssistantActive s) (devices s) (events s) (startBtn s) (stopBtn s)
    (testBtn s) (wakeWordsSelect s) (modelSelect s) (testCommandInput s)
    (statusIndicator s) (statusText s) (transcriptionDisplay s)
    (devicesGrid s) (activityLog s) (locationFilter s) v (eventFilter s)
    (deviceModal s) (addDeviceModal s).

Definition set_deviceModal (v : bool) (s : UI) : UI :=
  mkUI (isAssistantActive s) (devices s) (events s) (startBtn s) (stopBtn s)
    (testBtn s) (wakeWordsSelect s) (modelSelect s) (testCommandInput s)
    (statusIndicator s) (statusText s) (transcriptionDisplay s)
    (devicesGrid s) (activityLog s) (locationFilter s) (typeFilter s)
    (eventFilter s) v (addDeviceModal s).

Definition set_addDeviceModal (v : bool) (s : UI) : UI :=
  mkUI (isAssistantActive s) (devices s) (events s) (startBtn s) (stopBtn s)
    (testBtn s) (wakeWordsSelect s) (modelSelect s) (testCommandInput s)
    (statusIndicator s) (statusText s) (transcriptionDisplay s)
    (devicesGrid s) (activityLog s) (locationFilter s) (typeFilter s)
    (eventFilter s) (deviceModal s) v.

Definition button (b : ButtonId) (s : UI) : Button :=
  match b with
  | StartBtn => startBtn s
  | StopBtn => stopBtn s
  | TestBtn => testBtn s
  end.

Definition set_button (b : ButtonId) (v : Button) (s : UI) : UI :=
  match b with
  | StartBtn => set_startBtn v s
  | StopBtn => set_stopBtn v s
  | TestBtn => set_testBtn v s
  end.

Definition set_disabled (v : bool) (btn : Button) : Button :=
  {| disabled := v; icon := icon btn |}.

(** ** Effects and the computation monad *)

(** The arrow functions handed to [setTimeout] and [setInterval]. *)
Inductive Callback : Type :=
| cb_loadEvents     (* () => this.loadEvents() *)
| cb_eventPoll      (* () => { if (this.isAssistantActive) this.loadEvents(); } *)
| cb_statusPoll.    (* () => { this.checkAssistantStatus(); } *)

(** [notification m t] stands for one call [showNotification(m, t)]: an
    element appended to the page that removes itself on its own timer. *)
Inductive Effect : Type :=
| fetch_request (method url : string) (body : list (string * string))
| console_error (label : string)
| notification (msg kind : string)
| setTimeout (cb : Callback) (ms : nat)
| setInterval (cb : Callback) (ms : nat)
| form_reset.

Inductive Error : Type :=
| network_error (f : NetworkFailure).

Inductive Completion (A : Type) : Type :=
| Normal (a : A)
| Throw (e : Error).
Arguments Normal {A} a.
Arguments Throw {A} e.

Record Outcome (A : Type) : Type := mkOutcome {
  completion : Completion A;
  final : UI;
  effects : list Effect
}.
Arguments mkOutcome {A} _ _ _.
Arguments completion {A} _.
Arguments final {A} _.
Arguments effects {A} _.

Definition M (A : Type) : Type := UI -> Outcome A.

Definition ret {A : Type} (a : A) : M A :=
  fun s => mkOutcome (Normal a) s [].

Definition bind {A B : Type} (m : M A) (k : A -> M B) : M B :=
  fun s =>
    let o := m s in
    match completion o with
    | Normal a =>
        let o' := k a (final o) in
        mkOutcome (completion o') (final o') (effects o ++ effects o')%list
    | Throw e => mkOutcome (Throw e) (final o) (effects o)
    end.

Declare Scope js_scope.
Delimit Scope js_scope with js.
Notation "x <- m ;; k" := (bind m (fun x => k))
  (at level 61, m at next level, right associativity) : js_scope.
Notation "m ;; k" := (bind m (fun _ => k))
  (at level 61, right associativity) : js_scope.
Local Open Scope js_scope.

Definition get : M UI := fun s => mkOutcome (Normal s) s [].

Definition modify (f : UI -> UI) : M unit :=
  fun s => mkOutcome (Normal tt) (f s) [].

Definition emit (e : Effect) : M unit :=
  fun s => mkOutcome (Normal tt) s [e].

(** [try { body } catch (error) { handler }]. *)
Definition try_catch {A : Type} (body : M A) (handler : Error -> M A) : M A :=
  fun s =>
    let o := body s in
    match completion o with
    | Normal _ => o
    | Throw e =>
        let o' := handler e (final o) in
        mkOutcome (completion o') (final o') (effects o ++ effects o')%list
    end.

(** [try { body } finally { fin }]: [fin] runs whatever [body] did, and the
    completion of [body] stands unless [fin] throws. *)
Definition finally {A : Type} (body : M A) (fin : M unit) : M A :=
  fun s =>
    let o := body s in
    let o' := fin (final o) in
    mkOutcome
      match completion o' with
      | Normal _ => completion o
      | Throw e => Throw e
      end
      (final o') (effects o ++ effects o')%list.

(** [const response = await fetch(url, {method, body});
    const data = await response.json();] with the result [net] of the
    exchange: the request goes out, then [data] is bound or the await
    throws. *)
Definition fetch {P : Type} (method url : string) (body : list (string * string))
    (net : Fetched P) : M (Response P) :=
  fun s =>
    match net with
    | failed f => mkOutcome (Throw (network_error f)) s [fetch_request method url body]
    | resolved r => mkOutcome (Normal r) s [fetch_request method url body]
    end.

Definition console_error_ (label : string) : M unit := emit (console_error label).

Definition showNotification (msg kind : string) : M unit :=
  emit (notification msg kind).

Definition getNotificationIcon (kind : string) : string :=
  if kind =? "success" then "fa-check-circle"
  else if kind =? "error" then "fa-exclamation-circle"
  else if kind =? "warning" then "fa-exclamation-triangle"
  else "fa-info-circle".

(** [className] and [innerHTML] of the element [showNotification] builds. *)
Definition notification_className (kind : string) : string :=
  "notification notification-" ++ kind.

Definition notification_innerHTML (msg kind : string) : string :=
  JS.ln 12 ("<div class=" ++ JS.q "notification-content" ++ ">") ++
  JS.ln 16 ("<i class=" ++ JS.q ("fas " ++ getNotificationIcon kind) ++ "></i>") ++
  JS.ln 16 ("<span>" ++ msg ++ "</span>") ++
  JS.ln 12 "</div>" ++
  JS.ln 8 EmptyString.

(** ** The platform *)

(** What the browser supplies and the client only calls:
    [new Date(t * 1000).toLocaleString()] and [JSON.stringify(o, null, 2)]. *)
Class Platform : Type := {
  toLocaleString : JSNumber -> string;
  JSON_stringify : list (string * string) -> string
}.

(** ** Methods of [VoiceAssistantUI] *)

Section Client.

Context `{Platform}.

Definition setLoading (b : ButtonId) (loading : bool) : M unit :=
  modify (fun s =>
    let btn := button b s in
    if loading then
      set_button b
        {| disabled := true;
           icon := option_map (fun _ => "fas fa-spinner fa-spin") (icon btn) |} s
    else
      set_button b
        {| disabled := false;
           icon := option_map
                     (fun _ => match b with
                               | StartBtn => "fas fa-play"
                               | StopBtn => "fas fa-stop"
                               | TestBtn => "fas fa-play-circle"
                               end) (icon btn) |} s).

Definition updateStatus (status text : string) : M unit :=
  modify (fun s =>
    set_statusText text (set_statusIndicator ("status-indicator " ++ status) s)).

(** *** Devices *)

Definition getDeviceControls (device : Device) : string :=
  let controls :=
    if status device =? "off" then
      [ "<button class=" ++ JS.q "btn btn-primary btn-small" ++ " onclick=" ++
          JS.q ("event.stopPropagation(); app.controlDevice('" ++ id device ++
                "', 'turn_on')") ++ ">" ++
        JS.ln 16 ("<i class=" ++ JS.q "fas fa-power-off" ++ "></i> Turn On") ++
        JS.ln 12 "</button>" ]
    else
      [ "<button class=" ++ JS.q "btn btn-secondary btn-small" ++ " onclick=" ++
          JS.q ("event.stopPropagation(); app.controlDevice('" ++ id device ++
                "', 'turn_off')") ++ ">" ++
        JS.ln 16 ("<i class=" ++ JS.q "fas fa-power-off" ++ "></i> Turn Off") ++
        JS.ln 12 "</button>" ] in
  JS.join controls.

Definition getFilteredDevices (s : UI) : list Device :=
  let filtered := devices s in
  let locationFilter_ := value (locationFilter s) in
  let typeFilter_ := value (typeFilter s) in
  let filtered :=
    if JS.truthy locationFilter_
    then filter (fun device => location device =? locationFilter_) filtered
    else filtered in
  let filtered :=
    if JS.truthy typeFilter_
    then filter (fun device => device_type device =? typeFilter_) filtered
    else filtered in
  filtered.

Definition no_devices_html : string :=
  JS.ln 16 ("<div class=" ++ JS.q "no-devices" ++ ">") ++
  JS.ln 20 ("<i class=" ++ JS.q "fas fa-home" ++ "></i>") ++
  JS.ln 20 "<p>No devices found</p>" ++
  JS.ln 16 "</div>" ++
  JS.ln 12 EmptyString.

Definition device_card (device : Device) : string :=
  JS.ln 12 ("<div class=" ++ JS.q "device-card" ++ " onclick=" ++
            JS.q ("app.showDeviceDetails('" ++ id device ++ "')") ++ ">") ++
  JS.ln 16 ("<div class=" ++ JS.q "device-header" ++ ">") ++
  JS.ln 20 ("<div class=" ++ JS.q "device-info" ++ ">") ++
  JS.ln 24 ("<h4>" ++ name device ++ "</h4>") ++
  JS.ln 24 ("<span class=" ++ JS.q "device-type" ++ ">" ++ device_type device ++
            "</span>") ++
  JS.ln 20 "</div>" ++
  JS.ln 20 ("<span class=" ++ JS.q ("device-status " ++ status device) ++ ">" ++
            status device ++ "</span>") ++
  JS.ln 16 "</div>" ++
  JS.ln 16 ("<div class=" ++ JS.q "device-location" ++ ">") ++
  JS.ln 20 ("<i class=" ++ JS.q "fas fa-map-marker-alt" ++ "></i>") ++
  JS.ln 20 (location device) ++
  JS.ln 16 "</div>" ++
  JS.ln 16 ("<div class=" ++ JS.q "device-controls-inline" ++ ">") ++
  JS.ln 20 (getDeviceControls device) ++
  JS.ln 16 "</div>" ++
  JS.ln 12 "</div>" ++
  JS.ln 8 EmptyString.

Definition renderDevices : M unit :=
  modify (fun s =>
    let filteredDevices := getFilteredDevices s in
    match filteredDevices with
    | [] => set_devicesGrid no_devices_html s
    | _ :: _ => set_devicesGrid (JS.join (map device_card filteredDevices)) s
    end).

Definition updateFilters : M unit :=
  modify (fun s =>
    (* Update location filter *)
    let locations := JS.distinct (map location (devices s)) in
    let s := set_locationFilter
               (set_options ((EmptyString, "All Locations") ::
                             map (fun l => (l, l)) locations)
                            (locationFilter s)) s in
    (* Update type filter *)
    let types := JS.distinct (map device_type (devices s)) in
    set_typeFilter
      (set_options ((EmptyString, "All Types") :: map (fun t => (t, t)) types)
                   (typeFilter s)) s).

Definition filterDevices : M unit := renderDevices.

Definition loadDevices (net : Fetched (list (string * Device))) : M unit :=
  try_catch
    (data <- fetch "GET" "/api/devices/" [] net ;;
     match data with
     | ok devices_ =>
         modify (set_devices (JS.Object_values devices_)) ;;
         renderDevices ;;
         updateFilters
     | error_response _ => ret tt
     end)
    (fun error =>
       console_error_ "Error loading devices:" ;;
       showNotification "Failed to load devices" "error").

(** *** Events and transcription *)

Definition getFilteredEvents (s : UI) : list Event :=
  let filter_ := eventFilter s in
  if negb (JS.truthy filter_) then events s
  else filter (fun event => type event =? filter_) (events s).

Definition no_events_html : string :=
  JS.ln 16 ("<div class=" ++ JS.q "no-events" ++ ">") ++
  JS.ln 20 ("<i class=" ++ JS.q "fas fa-history" ++ "></i>") ++
  JS.ln 20 "<p>No events found</p>" ++
  JS.ln 16 "</div>" ++
  JS.ln 12 EmptyString.

Definition activity_item (event : Event) : string :=
  JS.ln 12 ("<div class=" ++ JS.q "activity-item" ++ ">") ++
  JS.ln 16 ("<div class=" ++ JS.q "activity-header" ++ ">") ++
  JS.ln 20 ("<span class=" ++ JS.q ("activity-type " ++ type event) ++ ">" ++
            type event ++ "</span>") ++
  JS.ln 20 ("<span class=" ++ JS.q "activity-timestamp" ++ ">" ++
            toLocaleString (timestamp event) ++ "</span>") ++
  JS.ln 16 "</div>" ++
  JS.ln 16 ("<div class=" ++ JS.q "activity-message" ++ ">" ++ message event ++
            "</div>") ++
  JS.ln 16 (match data event with
            | Some (member :: members) =>
                JS.ln 20 ("<div class=" ++ JS.q "activity-details" ++ ">" ++
                          JSON_stringify (member :: members) ++ "</div>") ++
                JS.ln 16 EmptyString
            | _ => EmptyString
            end) ++
  JS.ln 12 "</div>" ++
  JS.ln 8 EmptyString.

Definition renderEvents : M unit :=
  modify (fun s =>
    let filteredEvents := getFilteredEvents s in
    match filteredEvents with
    | [] => set_activityLog no_events_html s
    | _ :: _ => set_activityLog (JS.join (map activity_item filteredEvents)) s
    end).

Definition filterEvents : M unit := renderEvents.

Definition is_transcription (event : Event) : bool :=
  (type event =? "transcription_final") || (type event =? "transcription_partial").

Definition not_active_placeholder : string :=
  JS.ln 20 ("<div class=" ++ JS.q "placeholder" ++ ">") ++
  JS.ln 24 ("<i class=" ++ JS.q "fas fa-microphone-slash" ++ "></i>") ++
  JS.ln 24 "<p>Voice assistant is not active. Start the assistant to see transcriptions.</p>" ++
  JS.ln 20 "</div>" ++
  JS.ln 16 EmptyString.

Definition waiting_placeholder : string :=
  JS.ln 20 ("<div class=" ++ JS.q "placeholder" ++ ">") ++
  JS.ln 24 ("<i class=" ++ JS.q "fas fa-microphone" ++ "></i>") ++
  JS.ln 24 "<p>Waiting for voice input...</p>" ++
  JS.ln 20 "</div>" ++
  JS.ln 16 EmptyString.

Definition transcription_item (event : Event) : string :=
  JS.ln 12 ("<div class=" ++
            JS.q ("transcription-item " ++
                  (if type event =? "transcription_partial" then "partial"
                   else EmptyString)) ++ ">") ++
  JS.ln 16 ("<div class=" ++ JS.q "timestamp" ++ ">" ++
            toLocaleString (timestamp event) ++ "</div>") ++
  JS.ln 16 ("<div class=" ++ JS.q "text" ++ ">" ++ message event ++ "</div>") ++
  JS.ln 12 "</div>" ++
  JS.ln 8 EmptyString.

(** The last statement of the method, [scrollTop = scrollHeight], moves
    the scroll bar of the region to its end; scroll offsets are layout
    and are not part of [UI]. *)
Definition updateTranscription : M unit :=
  modify (fun s =>
    let transcriptionEvents := filter is_transcription (events s) in
    match transcriptionEvents with
    | [] =>
        if negb (isAssistantActive s)
        then set_transcriptionDisplay not_active_placeholder s
        else set_transcriptionDisplay waiting_placeholder s
    | _ :: _ =>
        set_transcriptionDisplay
          (JS.join (map transcription_item (JS.slice (-10) transcriptionEvents))) s
    end).

Definition cleared_placeholder (active : bool) : string :=
  JS.ln 12 ("<div class=" ++ JS.q "placeholder" ++ ">") ++
  JS.ln 16 ("<i class=" ++ JS.q "fas fa-microphone" ++ "></i>") ++
  JS.ln 16 ("<p>Transcription cleared. " ++
            (if active then "Waiting for voice input..."
             else "Start the assistant to see transcriptions.") ++ "</p>") ++
  JS.ln 12 "</div>" ++
  JS.ln 8 EmptyString.

Definition clearTranscription : M unit :=
  modify (fun s =>
    set_transcriptionDisplay (cleared_placeholder (isAssistantActive s)) s).

Definition loadEvents (net : Fetched (list Event)) : M unit :=
  try_catch
    (data <- fetch "GET" "/api/voice/events?limit=50" [] net ;;
     match data with
     | ok events_ =>
         modify (set_events events_) ;;
         renderEvents ;;
         updateTranscription
     | error_response _ => ret tt
     end)
    (fun error => console_error_ "Error loading events:").

Definition clearEvents (net : Fetched string) : M unit :=
  try_catch
    (data <- fetch "POST" "/api/voice/events/clear" [] net ;;
     match data with
     | ok _ =>
         modify (set_events []) ;;
         renderEvents ;;
         clearTranscription ;;
         showNotification "Events cleared" "info"
     | error_response msg => showNotification msg "error"
     end)
    (fun error =>
       console_error_ "Error clearing events:" ;;
       showNotification "Failed to clear events" "error").

(** *** Assistant controls *)

Definition startAssistant (net : Fetched string) : M unit :=
  finally
    (try_catch
       (setLoading StartBtn true ;;
        s <- get ;;
        data <- fetch "POST" "/api/voice/start"
                  [("wake_words", wakeWordsSelect s); ("model", modelSelect s)] net ;;
        match data with
        | ok _ =>
            modify (set_isAssistantActive true) ;;
            updateStatus "active" "Voice assistant started" ;;
            modify (fun s => set_startBtn (set_disabled true (startBtn s)) s) ;;
            modify (fun s => set_stopBtn (set_disabled false (stopBtn s)) s) ;;
            showNotification "Voice assistant started successfully" "success"
        | error_response msg => showNotification msg "error"
        end)
       (fun error =>
          console_error_ "Error starting assistant:" ;;
          showNotification "Failed to start voice assistant" "error"))
    (setLoading StartBtn false).

Definition stopAssistant (net : Fetched string) : M unit :=
  finally
    (try_catch
       (setLoading StopBtn true ;;
        data <- fetch "POST" "/api/voice/stop" [] net ;;
        match data with
        | ok _ =>
            modify (set_isAssistantActive false) ;;
            updateStatus "offline" "Voice assistant stopped" ;;
            modify (fun s => set_startBtn (set_disabled false (startBtn s)) s) ;;
            modify (fun s => set_stopBtn (set_disabled true (stopBtn s)) s) ;;
            showNotification "Voice assistant stopped" "info"
        | error_response msg => showNotification msg "error"
        end)
       (fun error =>
          console_error_ "Error stopping assistant:" ;;
          showNotification "Failed to stop voice assistant" "error"))
    (setLoading StopBtn false).

Definition testCommand (net : Fetched string) : M unit :=
  s <- get ;;
  let command := JS.trim (testCommandInput s) in
  if negb (JS.truthy command) then
    showNotification "Please enter a command to test" "warning"
  else
    finally
      (try_catch
         (setLoading TestBtn true ;;
          data <- fetch "POST" "/api/voice/test" [("text", command)] net ;;
          match data with
          | ok _ =>
              showNotification "Command processed successfully" "success" ;;
              modify (set_testCommandInput EmptyString) ;;
              (* Refresh events to see the result *)
              emit (setTimeout cb_loadEvents 500)
          | error_response msg => showNotification msg "error"
          end)
         (fun error =>
            console_error_ "Error testing command:" ;;
            showNotification "Failed to test command" "error"))
      (setLoading TestBtn false).

Definition checkAssistantStatus (net : Fetched Status) : M unit :=
  try_catch
    (data <- fetch "GET" "/api/voice/status" [] net ;;
     match data with
     | ok status =>
         modify (set_isAssistantActive (is_active status)) ;;
         if is_active status then
           (if is_listening status
            then updateStatus "listening" "Listening..."
            else updateStatus "active" "Active") ;;
           modify (fun s => set_startBtn (set_disabled true (startBtn s)) s) ;;
           modify (fun s => set_stopBtn (set_disabled false (stopBtn s)) s)
         else
           updateStatus "offline" "Offline" ;;
           modify (fun s => set_startBtn (set_disabled false (startBtn s)) s) ;;
           modify (fun s => set_stopBtn (set_disabled true (stopBtn s)) s)
     | error_response _ => ret tt
     end)
    (fun error => console_error_ "Error checking status:").

(** *** Device actions *)

(** [net] answers the action's own request, [netD] the device refresh
    that follows a success.  The body is [{ action, ...params }]: a member
    of [params] named [action] takes the place of the argument. *)
Definition controlDevice (deviceId action : string) (params : list (string * string))
    (net : Fetched string) (netD : Fetched (list (string * Device))) : M unit :=
  try_catch
    (data <- fetch "POST" ("/api/devices/" ++ deviceId ++ "/control")
               (JS.spread [("action", action)] params) net ;;
     match data with
     | ok msg =>
         showNotification msg "success" ;;
         loadDevices netD (* Refresh devices *)
     | error_response msg => showNotification msg "error"
     end)
    (fun error =>
       console_error_ "Error controlling device:" ;;
       showNotification "Failed to control device" "error").

Definition hideDeviceModal : M unit := modify (set_deviceModal false).

Definition showAddDeviceModal : M unit := modify (set_addDeviceModal true).

Definition hideAddDeviceModal : M unit :=
  modify (set_addDeviceModal false) ;;
  emit form_reset.

(** [deviceData] is what the handler reads from the form: the members
    [id], [name], [device_type] and [location] of the request body. *)
Definition handleAddDevice (deviceData : list (string * string))
    (net : Fetched string) (netD : Fetched (list (string * Device))) : M unit :=
  try_catch
    (data <- fetch "POST" "/api/devices/add" deviceData net ;;
     match data with
     | ok _ =>
         showNotification "Device added successfully" "success" ;;
         hideAddDeviceModal ;;
         loadDevices netD
     | error_response msg => showNotification msg "error"
     end)
    (fun error =>
       console_error_ "Error adding device:" ;;
       showNotification "Failed to add device" "error").

(** [confirmed] is the answer to the [confirm] dialog. *)
Definition removeDevice (deviceId : string) (confirmed : bool)
    (net : Fetched string) (netD : Fetched (list (string * Device))) : M unit :=
  if negb confirmed then ret tt
  else
    try_catch
      (data <- fetch "DELETE" ("/api/devices/" ++ deviceId) [] net ;;
       match data with
       | ok _ =>
           showNotification "Device removed successfully" "success" ;;
           hideDeviceModal ;;
           loadDevices netD
       | error_response msg => showNotification msg "error"
       end)
      (fun error =>
         console_error_ "Error removing device:" ;;
         showNotification "Failed to remove device" "error").

(** *** Start-up and polling *)

Definition loadInitialData (netD : Fetched (list (string * Device)))
    (netE : Fetched (list Event)) (netS : Fetched Status) : M unit :=
  loadDevices netD ;;
  loadEvents netE ;;
  checkAssistantStatus netS.

Definition startEventPolling : M unit :=
  (* Poll for events every 2 seconds *)
  emit (setInterval cb_eventPoll 2000) ;;
  (* Poll for status every 5 seconds *)
  emit (setInterval cb_statusPoll 5000).

(** One run of a timer callback; [netE] and [netS] answer the request it
    may issue. *)
Definition run_callback (cb : Callback) (netE : Fetched (list Event))
    (netS : Fetched Status) : M unit :=
  match cb with
  | cb_loadEvents => loadEvents netE
  | cb_eventPoll =>
      s <- get ;;
      if isAssistantActive s then loadEvents netE else ret tt
  | cb_statusPoll => checkAssistantStatus netS
  end.

(** *** Derived notions used by the statements *)

(** The markup each render method assigns to its region. *)
Definition devicesGrid_html (s : UI) : string :=
  match getFilteredDevices s with
  | [] => no_devices_html
  | filteredDevices => JS.join (map device_card filteredDevices)
  end.

Definition activityLog_html (s : UI) : string :=
  match getFilteredEvents s with
  | [] => no_events_html
  | filteredEvents => JS.join (map activity_item filteredEvents)
  end.

Definition transcriptionDisplay_html (s : UI) : string :=
  match filter is_transcription (events s) with
  | [] => if isAssistantActive s then waiting_placeholder
          else not_active_placeholder
  | transcriptionEvents =>
      JS.join (map transcription_item (JS.slice (-10) transcriptionEvents))
  end.


(** The transcription sub-view: the events [updateTranscription] shows. *)
Definition transcriptionView (s : UI) : list Event :=
  JS.slice (-10) (filter is_transcription (events s)).

(** A full server snapshot. *)
Record Snapshot : Type := mkSnapshot {
  snap_devices : list (string * Device);
  snap_events : list Event;
  snap_status : Status
}.

(** Reconciling one snapshot: the three loads of [loadInitialData], each
    answered successfully from the snapshot. *)
Definition reconcile (snap : Snapshot) (s : UI) : UI :=
  final (loadInitialData (resolved (ok (snap_devices snap)))
                         (resolved (ok (snap_events snap)))
                         (resolved (ok (snap_status snap))) s).

End Client.

(** ** Timers *)

(** [setInterval(cb, ms)] runs [cb] at the times [ms], [2 ms], [3 ms], ...
    after the call, in milliseconds. *)
Definition fires (ms t : nat) : bool := (0 <? t)%nat && (t mod ms =? 0)%nat.

(** The interval callbacks registered in a trace that are due at time [t],
    listed in registration order; the browser itself fixes no order between
    two timers that come due together. *)
Fixpoint due (trace : list Effect) (t : nat) : list Callback :=
  match trace with
  | [] => []
  | setInterval cb ms :: rest =>
      if fires ms t then cb :: due rest t else due rest t
  | _ :: rest => due rest t
  end.

(** The notifications shown in a trace, and how many they are. *)
Definition notifications (trace : list Effect) : list Effect :=
  filter (fun e => match e with notification _ _ => true | _ => false end) trace.

Definition count_notifications (trace : list Effect) : nat :=
  length (notifications trace).

Definition requests (trace : list Effect) : list Effect :=
  filter (fun e => match e with fetch_request _ _ _ => true | _ => false end) trace.

(** ** Vocabulary of the statements *)

(** A run is contained when it completes normally: nothing is thrown to
    the caller of the method. *)
Definition contained {A : Type} (o : Outcome A) : Prop :=
  exists a, completion o = Normal a.

(** The claim on failures as the specification words it: the failure is
    caught and turned into a notification. *)
Definition caught_and_notified {A : Type} (o : Outcome A) : Prop :=
  contained o /\ notifications (effects o) <> [].

(** [Subsequence l1 l2]: [l1] is [l2] with some elements left out, the
    others in the order they have in [l2]. *)
Inductive Subsequence {A : Type} : list A -> list A -> Prop :=
| sub_nil : Subsequence [] []
| sub_skip (x : A) (l1 l2 : list A) :
    Subsequence l1 l2 -> Subsequence l1 (x :: l2)
| sub_keep (x : A) (l1 l2 : list A) :
    Subsequence l1 l2 -> Subsequence (x :: l1) (x :: l2).

(** The state after a successful device fetch. *)
Definition after_device_fetch (fetched : list (string * Device)) (s : UI) : UI :=
  final (loadDevices (resolved (ok fetched)) s).

(** The claim on filter selections as the specification words it: a
    selection whose value is among the new options is kept, any other is
    reset to the show-all value (the empty string). *)
Definition selection_kept_or_reset (before after : Select) : Prop :=
  (In (value before) (options after) -> value after = value before) /\
  (~ In (value before) (options after) -> value after = EmptyString).

(** The claim on repeated reconciliation as the specification words it. *)
Definition idempotent_at `{Platform} (snap : Snapshot) (s : UI) : Prop :=
  reconcile snap (reconcile snap s) = reconcile snap s.

(** What the first run must find for the second one to repeat it: the
    filter selection in force hides none of the fetched devices, and the
    active flag already agrees with the snapshot unless the snapshot has a
    transcription event to show. *)
Definition settled (snap : Snapshot) (s : UI) : Prop :=
  getFilteredDevices (set_devices (JS.Object_values (snap_devices snap)) s) =
    JS.Object_values (snap_devices snap) /\
  (isAssistantActive s = is_active (snap_status snap) \/
   filter is_transcription (snap_events snap) <> []).

(** ** Concrete pages *)

(** A platform for the concrete runs: dates print as the number they were
    built from, objects as their members. *)
Definition plain_platform : Platform :=
  {| toLocaleString := fun t => match t with js_number literal => literal end;
     JSON_stringify :=
       fun members => JS.join (map (fun m => fst m ++ ":" ++ snd m ++ ";") members) |}.

(** A drop-down as the page delivers it: the show-all option alone. *)
Definition fresh_dropdown (label : string) : Select :=
  set_options [(EmptyString, label)] (mkSelect [] None true EmptyString).

(** The client right after its constructor has set the fields of [this]
    and looked up the elements: not active, no devices, no events. *)
Definition start_page : UI :=
  {| isAssistantActive := false;
     devices := [];
     events := [];
     startBtn := mkButton false (Some "fas fa-play");
     stopBtn := mkButton true (Some "fas fa-stop");
     testBtn := mkButton false (Some "fas fa-play-circle");
     wakeWordsSelect := "jarvis";
     modelSelect := "tiny";
     testCommandInput := EmptyString;
     statusIndicator := "status-indicator offline";
     statusText := "Offline";
     transcriptionDisplay := EmptyString;
     devicesGrid := EmptyString;
     activityLog := EmptyString;
     locationFilter := fresh_dropdown "All Locations";
     typeFilter := fresh_dropdown "All Types";
     eventFilter := EmptyString;
     deviceModal := false;
     addDeviceModal := false |}.

(** The user picks the option at index [i] of a select. *)
Definition choose (i : nat) (sel : Select) : Select :=
  {| options := options sel;
     selectedIndex := Some i;
     dropdown := dropdown sel;
     innerHTML := innerHTML sel |}.

Definition two_rooms : list (string * Device) :=
  [ ("dev1", mkDevice "dev1" "Lamp" "light" "Kitchen" "off");
    ("dev2", mkDevice "dev2" "Fan" "fan" "Bedroom" "on") ].

(** The devices of [two_rooms] are loaded, then the user picks Kitchen in
    the location filter and the change handler re-renders the grid. *)
Definition kitchen_page : UI :=
  let loaded := after_device_fetch two_rooms start_page in
  final (filterDevices
           (set_locationFilter (choose 1 (locationFilter loaded)) loaded)).

(** Two snapshots of the devices of [two_rooms], without events: the
    assistant listening, and the assistant stopped. *)
Definition first_snapshot : Snapshot :=
  {| snap_devices := two_rooms;
     snap_events := [];
     snap_status := mkStatus true true |}.

Definition idle_snapshot : Snapshot :=
  {| snap_devices := two_rooms;
     snap_events := [];
     snap_status := mkStatus false false |}.

(** Reads a field through the assignments made before it. *)
Ltac simpl_fields :=
  cbn [set_stopBtn set_startBtn set_testBtn set_statusText set_statusIndicator
       set_isAssistantActive set_transcriptionDisplay set_activityLog set_events
       set_typeFilter set_locationFilter set_devicesGrid set_devices
       set_testCommandInput set_deviceModal set_addDeviceModal
       set_disabled set_options
       isAssistantActive devices events startBtn stopBtn testBtn wakeWordsSelect
       modelSelect testCommandInput statusIndicator statusText transcriptionDisplay
       devicesGrid activityLog locationFilter typeFilter eventFilter deviceModal
       addDeviceModal disabled icon dropdown options selectedIndex innerHTML].

(** ** Vocabulary of the further properties *)

(** The class of a button's icon when the button is not loading. *)
Definition idle_icon (b : ButtonId) : string :=
  match b with
  | StartBtn => "fas fa-play"
  | StopBtn => "fas fa-stop"
  | TestBtn => "fas fa-play-circle"
  end.

(** A button as [setLoading(button, false)] leaves it: enabled, and with
    its idle icon when it has an icon at all. *)
Definition released (b : ButtonId) (btn : Button) : Button :=
  {| disabled := false;
     icon := option_map (fun _ => idle_icon b) (icon btn) |}.

(** The timeouts set in a trace. *)
Definition timeouts (trace : list Effect) : list Effect :=
  filter (fun e => match e with setTimeout _ _ => true | _ => false end) trace.

(** * Properties *)

(** ** What each method leaves behind *)

Section Frames.

Context `{Platform}.

Lemma renderDevices_final (s : UI) :
  final (renderDevices s) = set_devicesGrid (devicesGrid_html s) s.
Proof.
  unfold renderDevices, modify, devicesGrid_html. cbn [final].
  destruct (getFilteredDevices s); reflexivity.
Qed.

Lemma renderEvents_final (s : UI) :
  final (renderEvents s) = set_activityLog (activityLog_html s) s.
Proof.
  unfold renderEvents, modify, activityLog_html. cbn [final].
  destruct (getFilteredEvents s); reflexivity.
Qed.

Lemma updateTranscription_final (s : UI) :
  final (updateTranscription s) =
    set_transcriptionDisplay (transcriptionDisplay_html s) s.
Proof.
  unfold updateTranscription, modify, transcriptionDisplay_html. cbn [final].
  destruct (filter is_transcription (events s)); [|reflexivity].
  destruct (isAssistantActive s); reflexivity.
Qed.

Lemma updateFilters_final (s : UI) :
  final (updateFilters s) =
    set_typeFilter
      (set_options ((EmptyString, "All Types") ::
                    map (fun t => (t, t)) (JS.distinct (map device_type (devices s))))
                   (typeFilter s))
      (set_locationFilter
         (set_options ((EmptyString, "All Locations") ::
                       map (fun l => (l, l)) (JS.distinct (map location (devices s))))
                      (locationFilter s)) s).
Proof. reflexivity. Qed.

Lemma loadDevices_ok_final (fetched : list (string * Device)) (s : UI) :
  final (loadDevices (resolved (ok fetched)) s) =
    final (updateFilters
             (final (renderDevices (set_devices (JS.Object_values fetched) s)))).
Proof. reflexivity. Qed.

Lemma loadEvents_ok_final (fetched : list Event) (s : UI) :
  final (loadEvents (resolved (ok fetched)) s) =
    final (updateTranscription (final (renderEvents (set_events fetched s)))).
Proof. reflexivity. Qed.

Lemma loadInitialData_final netD netE netS (s : UI) :
  final (loadInitialData netD netE netS s) =
    final (checkAssistantStatus netS
             (final (loadEvents netE (final (loadDevices netD s))))).
Proof.
  unfold loadInitialData, bind.
  destruct netD as [fD|[devs|mD]], netE as [fE|[evs|mE]], netS as [fS|[st|mS]];
    reflexivity.
Qed.

End Frames.

(** ** Properties of the polls *)

Section Polls.

Context `{Platform}.

(** C1. A poll whose request fails (the [fetch] or the body parse rejects)
    leaves the whole client state as it was, in particular the stored
    device list, the stored event list and the active flag; this holds
    for the device load, the event load and the status check, and for
    the two timer callbacks that drive them. *)
Theorem failed_poll_keeps_state (f : NetworkFailure) (s : UI) :
  final (loadDevices (failed f) s) = s /\
  final (loadEvents (failed f) s) = s /\
  final (checkAssistantStatus (failed f) s) = s /\
  (forall netS, final (run_callback cb_eventPoll (failed f) netS s) = s) /\
  (forall netE, final (run_callback cb_statusPoll netE (failed f) s) = s).
Proof.
  repeat split; try reflexivity.
  intros netS. unfold run_callback, bind, get. cbn.
  destruct (isAssistantActive s); reflexivity.
Qed.

(** C7. After a successful device-list fetch the local device list is
    exactly the list of records of the response: it does not depend on
    the previous local list, every record of the response is in it and
    nothing else is. *)
Theorem loadDevices_replaces_device_set
    (fetched : list (string * Device)) (s : UI) :
  devices (final (loadDevices (resolved (ok fetched)) s)) =
    JS.Object_values fetched /\
  (forall d, In d (devices (final (loadDevices (resolved (ok fetched)) s))) <->
             exists k, In (k, d) fetched).
Proof.
  assert (E : devices (final (loadDevices (resolved (ok fetched)) s)) =
              JS.Object_values fetched).
  { rewrite loadDevices_ok_final, updateFilters_final, renderDevices_final.
    reflexivity. }
  rewrite E. split; [reflexivity|].
  intros d. unfold JS.Object_values. rewrite in_map_iff. split.
  - intros [[k d'] [Hd Hin]]. cbn in Hd. subst d'. now exists k.
  - intros [k Hin]. now exists (k, d).
Qed.

(** C8. A successful status poll that returns an active, listening
    assistant shows the text Listening..., disables the start control and
    enables the stop control; one that returns an inactive assistant
    shows Offline, enables the start control and disables the stop
    control.  The active flag follows the snapshot in both cases. *)
Theorem status_poll_sets_controls (s : UI) :
  (statusText (final (checkAssistantStatus (resolved (ok (mkStatus true true))) s))
     = "Listening..." /\
   disabled (startBtn (final (checkAssistantStatus (resolved (ok (mkStatus true true))) s)))
     = true /\
   disabled (stopBtn (final (checkAssistantStatus (resolved (ok (mkStatus true true))) s)))
     = false /\
   isAssistantActive (final (checkAssistantStatus (resolved (ok (mkStatus true true))) s))
     = true) /\
  (forall listening : bool,
     statusText (final (checkAssistantStatus (resolved (ok (mkStatus false listening))) s))
       = "Offline" /\
     disabled (startBtn (final (checkAssistantStatus (resolved (ok (mkStatus false listening))) s)))
       = false /\
     disabled (stopBtn (final (checkAssistantStatus (resolved (ok (mkStatus false listening))) s)))
       = true /\
     isAssistantActive (final (checkAssistantStatus (resolved (ok (mkStatus false listening))) s))
       = false).
Proof.
  split; [|intros listening]; repeat split; reflexivity.
Qed.

End Polls.

(** ** The polling schedule *)

Lemma fires_spec (ms t : nat) :
  fires ms t = true <-> (0 < t /\ t mod ms = 0)%nat.
Proof.
  unfold fires. rewrite andb_true_iff, Nat.ltb_lt, Nat.eqb_eq. reflexivity.
Qed.

Section Schedule.

Context `{Platform}.

(** C5. [startEventPolling] registers two intervals, the event poll every
    2000 ms and the status poll every 5000 ms, so at a time [t] after the
    call the callbacks due are the event poll when [t] is a positive
    multiple of 2000 and the status poll when it is one of 5000.  A run of
    the status callback requests the assistant status whatever the active
    flag says.  A run of the event callback requests the 50 most recent
    events when the flag is set, and when it is not set it issues no
    request, has no other effect and leaves the state alone. *)
Theorem polling_schedule (t : nat) (netE : Fetched (list Event))
    (netS : Fetched Status) (s : UI) :
  effects (startEventPolling s) =
    [setInterval cb_eventPoll 2000; setInterval cb_statusPoll 5000] /\
  due (effects (startEventPolling s)) t =
    ((if fires 2000 t then [cb_eventPoll] else []) ++
     (if fires 5000 t then [cb_statusPoll] else []))%list /\
  requests (effects (run_callback cb_statusPoll netE netS s)) =
    [fetch_request "GET" "/api/voice/status" []] /\
  (if isAssistantActive s
   then requests (effects (run_callback cb_eventPoll netE netS s)) =
          [fetch_request "GET" "/api/voice/events?limit=50" []]
   else effects (run_callback cb_eventPoll netE netS s) = [] /\
        final (run_callback cb_eventPoll netE netS s) = s).
Proof.
  split; [reflexivity|]. split.
  { cbn [startEventPolling bind emit effects completion final app due].
    destruct (fires 2000 t), (fires 5000 t); reflexivity. }
  split.
  { destruct netS as [f|[st|m]]; try reflexivity.
    destruct st as [[|] [|]]; reflexivity. }
  unfold run_callback, bind, get. cbn [completion final effects app].
  destruct (isAssistantActive s).
  - destruct netE as [f|[evs|m]]; reflexivity.
  - split; reflexivity.
Qed.

End Schedule.

(** ** The test command and the transcription region *)

Section Actions.

Context `{Platform}.

(** C9. Submitting the test command surfaces exactly one notification and
    never throws.  When the input is empty after trimming, that
    notification is the warning, it is the only effect (no request goes
    out) and the state is unchanged.  Otherwise one request carries the
    trimmed text, and the notification reports the outcome: success, the
    server's message on an application error, or the failure of the
    request. *)
Theorem testCommand_notifies_once (net : Fetched string) (s : UI) :
  completion (testCommand net s) = Normal tt /\
  count_notifications (effects (testCommand net s)) = 1 /\
  (if JS.truthy (JS.trim (testCommandInput s))
   then
     requests (effects (testCommand net s)) =
       [fetch_request "POST" "/api/voice/test"
          [("text", JS.trim (testCommandInput s))]] /\
     match net with
     | resolved (ok _) =>
         In (notification "Command processed successfully" "success")
            (effects (testCommand net s))
     | resolved (error_response msg) =>
         In (notification msg "error") (effects (testCommand net s))
     | failed _ =>
         In (notification "Failed to test command" "error")
            (effects (testCommand net s))
     end
   else
     effects (testCommand net s) =
       [notification "Please enter a command to test" "warning"] /\
     final (testCommand net s) = s).
Proof.
  unfold testCommand, bind, get. cbn [completion final effects app].
  destruct (JS.trim (testCommandInput s)) as [|c r]; cbn [JS.truthy negb].
  - repeat split; reflexivity.
  - destruct net as [f|[p|m]]; cbn; intuition.
Qed.

(** C10. Clearing the transcription assigns the placeholder to the
    transcription region and changes nothing else: no effect, and the
    stored events (like every other field) are the ones from before.  The
    region is therefore rebuilt from the retained events by the next
    event reconciliation, which gives exactly what it would have given
    without the clearing. *)
Theorem clearTranscription_frame (s : UI) :
  final (clearTranscription s) =
    set_transcriptionDisplay (cleared_placeholder (isAssistantActive s)) s /\
  effects (clearTranscription s) = [] /\
  (events (final (clearTranscription s)) = events s /\
   devices (final (clearTranscription s)) = devices s /\
   isAssistantActive (final (clearTranscription s)) = isAssistantActive s) /\
  final (updateTranscription (final (clearTranscription s))) =
    final (updateTranscription s) /\
  transcriptionDisplay (final (updateTranscription (final (clearTranscription s)))) =
    transcriptionDisplay_html s /\
  (forall fetched,
     final (loadEvents (resolved (ok fetched)) (final (clearTranscription s))) =
     final (loadEvents (resolved (ok fetched)) s)).
Proof.
  split; [reflexivity|]. split; [reflexivity|].
  split; [repeat split; reflexivity|].
  split; [|split].
  - rewrite !updateTranscription_final. reflexivity.
  - rewrite updateTranscription_final. reflexivity.
  - intros fetched.
    rewrite !loadEvents_ok_final, !updateTranscription_final, !renderEvents_final.
    reflexivity.
Qed.

End Actions.

(** ** The transcription sub-view *)

Section ListFacts.

Variable A : Type.

Lemma Subsequence_refl (l : list A) : Subsequence l l.
Proof. induction l; constructor; assumption. Qed.

Lemma Subsequence_filter (p : A -> bool) (l : list A) :
  Subsequence (filter p l) l.
Proof.
  induction l as [|x l IH]; cbn; [constructor|].
  destruct (p x); constructor; assumption.
Qed.

Lemma Subsequence_skipn (n : nat) (l : list A) : Subsequence (skipn n l) l.
Proof.
  revert l. induction n as [|n IH]; intros l.
  - apply Subsequence_refl.
  - destruct l as [|x l]; cbn; [constructor|].
    constructor. apply IH.
Qed.

Lemma Subsequence_trans (l1 l2 l3 : list A) :
  Subsequence l1 l2 -> Subsequence l2 l3 -> Subsequence l1 l3.
Proof.
  intros H12 H23. revert l1 H12.
  induction H23 as [|x l2 l3 H23 IH|x l2 l3 H23 IH]; intros l1 H12.
  - assumption.
  - constructor. apply IH. assumption.
  - inversion H12 as [|y k1 k2 Hk|y k1 k2 Hk]; subst.
    + apply sub_skip. apply IH. exact Hk.
    + apply sub_keep. apply IH. exact Hk.
Qed.

(** [slice(-k)] keeps the last [k] elements, all of them when there are
    fewer. *)
Lemma slice_negative (k : nat) (l : list A) :
  (0 < k)%nat -> JS.slice (- Z.of_nat k) l = skipn (length l - k) l.
Proof.
  intros Hk. unfold JS.slice.
  replace (- Z.of_nat k <? 0)%Z with true by (symmetry; apply Z.ltb_lt; lia).
  f_equal. lia.
Qed.

Lemma slice_last_ten (l : list A) :
  JS.slice (-10) l = skipn (length l - 10) l.
Proof. apply (slice_negative 10). lia. Qed.

End ListFacts.

Lemma is_transcription_spec (e : Event) :
  is_transcription e = true <->
  type e = "transcription_partial" \/ type e = "transcription_final".
Proof.
  unfold is_transcription. rewrite orb_true_iff, !String.eqb_eq. tauto.
Qed.

Section Transcription.

Context `{Platform}.

(** C4. The transcription sub-view is what [updateTranscription] renders
    (one item per event, the placeholder when there is none).  It holds
    only events of type [transcription_partial] or [transcription_final],
    at most 10 of them; it is the tail of the transcription events of the
    stored list, the last 10 when there are more; and it keeps the order
    of the fetched list.  The transcription events are exactly the events
    of one of these two types: the test the method filters with holds of
    an event if and only if its type is one of the two, so the events it
    selects from the stored list are all the stored events of these types
    and no others. *)
Theorem transcription_view_bounded (s : UI) :
  transcriptionDisplay (final (updateTranscription s)) =
    match transcriptionView s with
    | [] => if isAssistantActive s then waiting_placeholder
            else not_active_placeholder
    | shown => JS.join (map transcription_item shown)
    end /\
  Forall (fun e => type e = "transcription_partial" \/
                   type e = "transcription_final") (transcriptionView s) /\
  (length (transcriptionView s) <= 10)%nat /\
  length (transcriptionView s) =
    Nat.min 10 (length (filter is_transcription (events s))) /\
  (exists older,
     filter is_transcription (events s) = (older ++ transcriptionView s)%list) /\
  Subsequence (transcriptionView s) (events s) /\
  (forall e,
     is_transcription e = true <->
     type e = "transcription_partial" \/ type e = "transcription_final") /\
  (forall e,
     In e (filter is_transcription (events s)) <->
     In e (events s) /\
     (type e = "transcription_partial" \/ type e = "transcription_final")).
Proof.
  unfold transcriptionView. rewrite slice_last_ten.
  set (tr := filter is_transcription (events s)).
  assert (Hsuffix : (firstn (length tr - 10) tr ++ skipn (length tr - 10) tr)%list = tr)
    by apply firstn_skipn.
  assert (Hall : Forall (fun e => is_transcription e = true) tr).
  { apply Forall_forall. intros e He. apply filter_In in He. tauto. }
  split; [|split; [|split; [|split; [|split; [|split; [|split]]]]]].
  - rewrite updateTranscription_final. cbn [transcriptionDisplay set_transcriptionDisplay].
    unfold transcriptionDisplay_html. fold tr.
    destruct tr as [|e tr'] eqn:E; [reflexivity|]. rewrite slice_last_ten.
    destruct (skipn (length (e :: tr') - 10) (e :: tr')) eqn:Es; [|reflexivity].
    exfalso.
    assert (Hlen : length (skipn (length (e :: tr') - 10) (e :: tr')) = 0%nat)
      by (rewrite Es; reflexivity).
    rewrite length_skipn in Hlen. cbn [length] in Hlen. lia.
  - rewrite <- Hsuffix in Hall. apply Forall_app in Hall.
    destruct Hall as [_ Hall]. revert Hall. apply Forall_impl.
    intros e. apply is_transcription_spec.
  - rewrite length_skipn. lia.
  - rewrite length_skipn. lia.
  - exists (firstn (length tr - 10) tr). symmetry. exact Hsuffix.
  - apply Subsequence_trans with tr.
    + apply Subsequence_skipn.
    + apply Subsequence_filter.
  - intros e. apply is_transcription_spec.
  - intros e. unfold tr. rewrite filter_In, is_transcription_spec. tauto.
Qed.

End Transcription.

(** ** Filter options and filter selection *)

Lemma existsb_eqb_In (x : string) (seen : list string) :
  existsb (String.eqb x) seen = true <-> In x seen.
Proof.
  rewrite existsb_exists. split.
  - intros [y [Hy E]]. apply String.eqb_eq in E. now subst.
  - intros Hx. exists x. split; [assumption|apply String.eqb_refl].
Qed.

Lemma distinct_from_In (xs seen : list string) (x : string) :
  In x (JS.distinct_from seen xs) <-> In x xs /\ ~ In x seen.
Proof.
  revert seen. induction xs as [|y r IH]; intros seen; cbn.
  - tauto.
  - destruct (existsb (String.eqb y) seen) eqn:E.
    + apply existsb_eqb_In in E. rewrite IH. split.
      * tauto.
      * intros [[Hy|Hr] Hs]; [subst; contradiction|tauto].
    + assert (Hn : ~ In y seen).
      { intros Hy. apply existsb_eqb_In in Hy. congruence. }
      cbn. rewrite IH. cbn. split.
      * intros [Hy|[Hr Hs]]; [subst; tauto|tauto].
      * intros [[Hy|Hr] Hs]; [now left|].
        destruct (string_dec y x) as [->|Hne]; [now left|right].
        split; [assumption|]. intros [Hy|Hx]; contradiction.
Qed.

Lemma distinct_from_NoDup (xs seen : list string) :
  NoDup (JS.distinct_from seen xs).
Proof.
  revert seen. induction xs as [|y r IH]; intros seen; cbn.
  - constructor.
  - destruct (existsb (String.eqb y) seen); [apply IH|].
    constructor; [|apply IH].
    rewrite distinct_from_In. cbn. tauto.
Qed.

Lemma distinct_In (xs : list string) (x : string) :
  In x (JS.distinct xs) <-> In x xs.
Proof. unfold JS.distinct. rewrite distinct_from_In. cbn. tauto. Qed.

Lemma distinct_NoDup (xs : list string) : NoDup (JS.distinct xs).
Proof. apply distinct_from_NoDup. Qed.

Lemma map_fst_diag (xs : list string) :
  map fst (map (fun x : string => (x, x)) xs) = xs.
Proof. induction xs as [|x r IH]; cbn; congruence. Qed.

(** After [updateFilters] a select holds the show-all option first and has
    the empty value, whatever it held before. *)
Lemma set_options_value (label : string) (rest : list (string * string))
    (sel : Select) :
  value (set_options ((EmptyString, label) :: rest) sel) = EmptyString.
Proof. unfold value, set_options. cbn. destruct (dropdown sel); reflexivity. Qed.

(** C2, amended. A successful device fetch rebuilds both option lists from
    the fetched devices (the show-all option first, then the distinct
    locations, respectively device types, each once, in order of first
    occurrence) and leaves both selections at show-all, whether or not the
    value selected before is still among the options. *)
Theorem device_fetch_resets_filters (fetched : list (string * Device)) (s : UI) :
  options (locationFilter (after_device_fetch fetched s)) =
    EmptyString :: JS.distinct (map location (JS.Object_values fetched)) /\
  options (typeFilter (after_device_fetch fetched s)) =
    EmptyString :: JS.distinct (map device_type (JS.Object_values fetched)) /\
  NoDup (JS.distinct (map location (JS.Object_values fetched))) /\
  NoDup (JS.distinct (map device_type (JS.Object_values fetched))) /\
  (forall l, In l (JS.distinct (map location (JS.Object_values fetched))) <->
             exists d, In d (JS.Object_values fetched) /\ location d = l) /\
  (forall t, In t (JS.distinct (map device_type (JS.Object_values fetched))) <->
             exists d, In d (JS.Object_values fetched) /\ device_type d = t) /\
  value (locationFilter (after_device_fetch fetched s)) = EmptyString /\
  value (typeFilter (after_device_fetch fetched s)) = EmptyString.
Proof.
  unfold after_device_fetch.
  rewrite loadDevices_ok_final, updateFilters_final, renderDevices_final.
  cbn [locationFilter typeFilter devices set_typeFilter set_locationFilter
       set_devicesGrid set_devices].
  repeat split.
  - unfold set_options. cbn [options map fst]. now rewrite map_fst_diag.
  - unfold set_options. cbn [options map fst]. now rewrite map_fst_diag.
  - apply distinct_NoDup.
  - apply distinct_NoDup.
  - rewrite distinct_In, in_map_iff. intros [d [E Hd]]. now exists d.
  - rewrite distinct_In, in_map_iff. intros [d [Hd E]]. now exists d.
  - rewrite distinct_In, in_map_iff. intros [d [E Hd]]. now exists d.
  - rewrite distinct_In, in_map_iff. intros [d [Hd E]]. now exists d.
  - apply set_options_value.
  - apply set_options_value.
Qed.

(** ** Losing the filter selection *)

Example kitchen_page_selection :
  value (locationFilter kitchen_page) = "Kitchen" /\
  map id (getFilteredDevices kitchen_page) = ["dev1"].
Proof. split; reflexivity. Qed.

(** C2 fails as stated: with Kitchen selected, fetching the same two
    devices again offers Kitchen among the new options, and the selection
    is back at show-all. *)
Lemma filter_selection_not_kept :
  ~ selection_kept_or_reset
      (locationFilter kitchen_page)
      (locationFilter (after_device_fetch two_rooms kitchen_page)).
Proof.
  intros [Hkeep _].
  assert (Hin : In (value (locationFilter kitchen_page))
                   (options (locationFilter (after_device_fetch two_rooms kitchen_page)))).
  { cbn. right. left. reflexivity. }
  specialize (Hkeep Hin). vm_compute in Hkeep. discriminate Hkeep.
Qed.

(** ** Equality of client states *)

(** Two states with the same fields are the same state. *)
Lemma UI_ext (s1 s2 : UI) :
  isAssistantActive s1 = isAssistantActive s2 ->
  devices s1 = devices s2 ->
  events s1 = events s2 ->
  startBtn s1 = startBtn s2 ->
  stopBtn s1 = stopBtn s2 ->
  testBtn s1 = testBtn s2 ->
  wakeWordsSelect s1 = wakeWordsSelect s2 ->
  modelSelect s1 = modelSelect s2 ->
  testCommandInput s1 = testCommandInput s2 ->
  statusIndicator s1 = statusIndicator s2 ->
  statusText s1 = statusText s2 ->
  transcriptionDisplay s1 = transcriptionDisplay s2 ->
  devicesGrid s1 = devicesGrid s2 ->
  activityLog s1 = activityLog s2 ->
  locationFilter s1 = locationFilter s2 ->
  typeFilter s1 = typeFilter s2 ->
  eventFilter s1 = eventFilter s2 ->
  deviceModal s1 = deviceModal s2 ->
  addDeviceModal s1 = addDeviceModal s2 ->
  s1 = s2.
Proof.
  destruct s1, s2. cbn. intros. subst. reflexivity.
Qed.

(** ** Reconciling the same snapshot again *)

Section Idempotence.

Context `{Platform}.

Lemma checkAssistantStatus_ok_final (st : Status) (s : UI) :
  final (checkAssistantStatus (resolved (ok st)) s) =
    set_stopBtn (set_disabled (negb (is_active st)) (stopBtn s))
      (set_startBtn (set_disabled (is_active st) (startBtn s))
         (set_statusText
            (if is_active st
             then if is_listening st then "Listening..." else "Active"
             else "Offline")
            (set_statusIndicator
               ("status-indicator " ++
                (if is_active st
                 then if is_listening st then "listening" else "active"
                 else "offline"))
               (set_isAssistantActive (is_active st) s)))).
Proof. destruct st as [[|] [|]]; reflexivity. Qed.

Lemma reconcile_final (snap : Snapshot) (s : UI) :
  reconcile snap s =
    final (checkAssistantStatus (resolved (ok (snap_status snap)))
      (final (updateTranscription
        (final (renderEvents
          (set_events (snap_events snap)
            (final (updateFilters
              (final (renderDevices
                (set_devices (JS.Object_values (snap_devices snap)) s))))))))))).
Proof.
  unfold reconcile.
  now rewrite loadInitialData_final, loadEvents_ok_final, loadDevices_ok_final.
Qed.

(** With the show-all value in both filters every device is shown. *)
Lemma getFilteredDevices_show_all (s : UI) :
  value (locationFilter s) = EmptyString ->
  value (typeFilter s) = EmptyString ->
  getFilteredDevices s = devices s.
Proof.
  intros Hl Ht. unfold getFilteredDevices. rewrite Hl, Ht. reflexivity.
Qed.

(** One reconciliation leaves both device filters at show-all and the
    active flag equal to the snapshot's, so it establishes [settled]. *)
Lemma reconcile_settles (snap : Snapshot) (s : UI) :
  settled snap (reconcile snap s).
Proof.
  rewrite reconcile_final, checkAssistantStatus_ok_final,
    updateTranscription_final, renderEvents_final, updateFilters_final,
    renderDevices_final.
  split; [|left; reflexivity].
  rewrite getFilteredDevices_show_all; [reflexivity| |];
    apply set_options_value.
Qed.

(** Taken one load at a time, the event load and the status check repeat
    themselves on the same answer without any condition; the device load
    does when the filter selection hides none of the fetched devices. *)
Lemma loadEvents_twice (fetched : list Event) (s : UI) :
  final (loadEvents (resolved (ok fetched))
           (final (loadEvents (resolved (ok fetched)) s))) =
  final (loadEvents (resolved (ok fetched)) s).
Proof.
  rewrite !loadEvents_ok_final, !updateTranscription_final, !renderEvents_final.
  apply UI_ext; simpl_fields; try reflexivity.
  all: unfold transcriptionDisplay_html, activityLog_html, getFilteredEvents;
    simpl_fields; reflexivity.
Qed.

Lemma checkAssistantStatus_twice (st : Status) (s : UI) :
  final (checkAssistantStatus (resolved (ok st))
           (final (checkAssistantStatus (resolved (ok st)) s))) =
  final (checkAssistantStatus (resolved (ok st)) s).
Proof.
  rewrite !checkAssistantStatus_ok_final.
  apply UI_ext; simpl_fields; reflexivity.
Qed.

Lemma loadDevices_twice (fetched : list (string * Device)) (s : UI) :
  getFilteredDevices (set_devices (JS.Object_values fetched) s) =
    JS.Object_values fetched ->
  after_device_fetch fetched (after_device_fetch fetched s) =
  after_device_fetch fetched s.
Proof.
  intros Hshown. unfold after_device_fetch.
  rewrite !loadDevices_ok_final, !updateFilters_final, !renderDevices_final.
  unfold devicesGrid_html. rewrite Hshown.
  rewrite getFilteredDevices_show_all; [| apply set_options_value ..].
  apply UI_ext; simpl_fields; reflexivity.
Qed.

(** C3, amended. Reconciling the same snapshot a second time gives the view
    state, and with it the rendered regions byte for byte, that the first
    run gave, for every event filter selection, as long as the first run
    starts from a state in which the device filter selection hides none of
    the fetched devices and the active flag already agrees with the
    snapshot or the snapshot holds a transcription event. *)
Theorem reconcile_idempotent_when_settled (snap : Snapshot) (s : UI) :
  settled snap s -> reconcile snap (reconcile snap s) = reconcile snap s.
Proof.
  intros [Hshown Hflag].
  rewrite !reconcile_final, !checkAssistantStatus_ok_final,
    !updateTranscription_final, !renderEvents_final, !updateFilters_final,
    !renderDevices_final.
  unfold devicesGrid_html.
  rewrite Hshown.
  rewrite getFilteredDevices_show_all; [| apply set_options_value ..].
  apply UI_ext; simpl_fields; try reflexivity.
  all: unfold transcriptionDisplay_html, activityLog_html, getFilteredEvents;
    simpl_fields; try reflexivity.
  destruct (filter is_transcription (snap_events snap)) as [|e tr];
    [|reflexivity].
  destruct Hflag as [Hflag|Hflag]; [|contradiction].
  now rewrite Hflag.
Qed.

End Idempotence.

(** C3 fails as stated: the client as constructed (flag unset) reconciles
    a snapshot of an active assistant without transcriptions; the first run
    renders the not-active placeholder and then sets the flag, the second
    run renders the waiting placeholder. *)
Lemma reconcile_twice_differs :
  ~ idempotent_at (H := plain_platform) first_snapshot start_page.
Proof.
  unfold idempotent_at. intros E.
  apply (f_equal transcriptionDisplay) in E.
  vm_compute in E. discriminate E.
Qed.

(** The filter selection matters in the same way: with Kitchen selected the
    first run draws the Kitchen devices and resets the filter, the second
    run draws all devices. *)
Example reconcile_twice_differs_on_filter :
  map id (getFilteredDevices kitchen_page) = ["dev1"] /\
  devicesGrid (reconcile (H := plain_platform) idle_snapshot kitchen_page) <>
  devicesGrid (reconcile (H := plain_platform) idle_snapshot
                 (reconcile (H := plain_platform) idle_snapshot kitchen_page)).
Proof.
  split; [reflexivity|].
  intros E. vm_compute in E. discriminate E.
Qed.

(** A concrete instance of C3 as amended: the state reached by one
    reconciliation of [first_snapshot] from [start_page]. *)
Lemma reconcile_idempotent_witness :
  settled first_snapshot (reconcile (H := plain_platform) first_snapshot start_page) /\
  reconcile (H := plain_platform) first_snapshot
    (reconcile (H := plain_platform) first_snapshot
       (reconcile (H := plain_platform) first_snapshot start_page)) =
  reconcile (H := plain_platform) first_snapshot
    (reconcile (H := plain_platform) first_snapshot start_page).
Proof.
  split.
  - split; [reflexivity|left; reflexivity].
  - apply (reconcile_idempotent_when_settled (H := plain_platform)
             first_snapshot (reconcile (H := plain_platform) first_snapshot start_page)).
    split; [reflexivity|left; reflexivity].
Defined.

(** ** Failures at the poll and action boundaries *)

(** C6 fails as stated: a status poll whose request is rejected is caught,
    and all it does is log to the console; no notification is shown. *)
Lemma failed_status_poll_not_notified :
  ~ caught_and_notified (checkAssistantStatus (failed fetch_rejected) start_page) /\
  effects (checkAssistantStatus (failed fetch_rejected) start_page) =
    [fetch_request "GET" "/api/voice/status" [];
     console_error "Error checking status:"].
Proof.
  split; [|reflexivity].
  intros [_ Hn]. apply Hn. reflexivity.
Qed.

Section Failures.

Context `{Platform}.

(** No method lets an exception out, whatever its requests return. *)
Lemma polls_contained (s : UI) :
  (forall net, completion (loadDevices net s) = Normal tt) /\
  (forall net, completion (loadEvents net s) = Normal tt) /\
  (forall net, completion (checkAssistantStatus net s) = Normal tt).
Proof.
  repeat split; intros net.
  - destruct net as [f|[p|m]]; reflexivity.
  - destruct net as [f|[p|m]]; reflexivity.
  - destruct net as [f|[[[|] [|]]|m]]; reflexivity.
Qed.

Lemma actions_contained (s : UI) :
  (forall net, completion (startAssistant net s) = Normal tt) /\
  (forall net, completion (stopAssistant net s) = Normal tt) /\
  (forall net, completion (testCommand net s) = Normal tt) /\
  (forall net, completion (clearEvents net s) = Normal tt) /\
  (forall i a ps net netD, completion (controlDevice i a ps net netD s) = Normal tt) /\
  (forall d net netD, completion (handleAddDevice d net netD s) = Normal tt) /\
  (forall i c net netD, completion (removeDevice i c net netD s) = Normal tt).
Proof.
  repeat split.
  - intros [f|[p|m]]; reflexivity.
  - intros [f|[p|m]]; reflexivity.
  - intros net. unfold testCommand, bind, get. cbn [completion final effects].
    destruct (JS.truthy (JS.trim (testCommandInput s))); [|reflexivity].
    destruct net as [f|[p|m]]; reflexivity.
  - intros [f|[p|m]]; reflexivity.
  - intros i a ps [f|[p|m]] netD; try reflexivity.
    destruct netD as [fD|[pD|mD]]; reflexivity.
  - intros d [f|[p|m]] netD; try reflexivity.
    destruct netD as [fD|[pD|mD]]; reflexivity.
  - intros i [|] [f|[p|m]] netD; try reflexivity.
    destruct netD as [fD|[pD|mD]]; reflexivity.
Qed.

(** C6, amended. Every failure is caught where it arises: each poll and
    each action completes normally whatever its requests return.  A failed
    action (start, stop, test command, clear events, control, add or remove
    device) shows exactly one error notification, with the server's message
    for an application error and a fixed text for a network failure, and an
    empty test command shows exactly one warning.  A network failure of the
    device load shows one error notification.  A network failure of the
    event load or of the status check is logged to the console and shows no
    notification, and an application error answered to any of the three
    loads is dropped without any notification or log entry. *)
Theorem failures_contained (s : UI) :
  (* nothing is thrown past a method *)
  ((forall net, contained (loadDevices net s)) /\
   (forall net, contained (loadEvents net s)) /\
   (forall net, contained (checkAssistantStatus net s)) /\
   (forall net, contained (startAssistant net s)) /\
   (forall net, contained (stopAssistant net s)) /\
   (forall net, contained (testCommand net s)) /\
   (forall net, contained (clearEvents net s)) /\
   (forall i a ps net netD, contained (controlDevice i a ps net netD s)) /\
   (forall d net netD, contained (handleAddDevice d net netD s)) /\
   (forall i c net netD, contained (removeDevice i c net netD s))) /\
  (* network failures of actions *)
  (forall f,
     notifications (effects (startAssistant (failed f) s)) =
       [notification "Failed to start voice assistant" "error"] /\
     notifications (effects (stopAssistant (failed f) s)) =
       [notification "Failed to stop voice assistant" "error"] /\
     notifications (effects (clearEvents (failed f) s)) =
       [notification "Failed to clear events" "error"] /\
     (forall i a ps netD,
        notifications (effects (controlDevice i a ps (failed f) netD s)) =
          [notification "Failed to control device" "error"]) /\
     (forall d netD,
        notifications (effects (handleAddDevice d (failed f) netD s)) =
          [notification "Failed to add device" "error"]) /\
     (forall i netD,
        notifications (effects (removeDevice i true (failed f) netD s)) =
          [notification "Failed to remove device" "error"])) /\
  (* application errors of actions *)
  (forall m,
     notifications (effects (startAssistant (resolved (error_response m)) s)) =
       [notification m "error"] /\
     notifications (effects (stopAssistant (resolved (error_response m)) s)) =
       [notification m "error"] /\
     notifications (effects (clearEvents (resolved (error_response m)) s)) =
       [notification m "error"] /\
     (forall i a ps netD,
        notifications
          (effects (controlDevice i a ps (resolved (error_response m)) netD s)) =
          [notification m "error"]) /\
     (forall d netD,
        notifications
          (effects (handleAddDevice d (resolved (error_response m)) netD s)) =
          [notification m "error"]) /\
     (forall i netD,
        notifications
          (effects (removeDevice i true (resolved (error_response m)) netD s)) =
          [notification m "error"])) /\
  (* the test command: validation, network failure, application error *)
  (forall f m net,
     if JS.truthy (JS.trim (testCommandInput s))
     then
       notifications (effects (testCommand (failed f) s)) =
         [notification "Failed to test command" "error"] /\
       notifications (effects (testCommand (resolved (error_response m)) s)) =
         [notification m "error"]
     else
       effects (testCommand net s) =
         [notification "Please enter a command to test" "warning"]) /\
  (* the three loads *)
  (forall f,
     effects (loadDevices (failed f) s) =
       [fetch_request "GET" "/api/devices/" [];
        console_error "Error loading devices:";
        notification "Failed to load devices" "error"] /\
     effects (loadEvents (failed f) s) =
       [fetch_request "GET" "/api/voice/events?limit=50" [];
        console_error "Error loading events:"] /\
     effects (checkAssistantStatus (failed f) s) =
       [fetch_request "GET" "/api/voice/status" [];
        console_error "Error checking status:"]) /\
  (forall m,
     effects (loadDevices (resolved (error_response m)) s) =
       [fetch_request "GET" "/api/devices/" []] /\
     effects (loadEvents (resolved (error_response m)) s) =
       [fetch_request "GET" "/api/voice/events?limit=50" []] /\
     effects (checkAssistantStatus (resolved (error_response m)) s) =
       [fetch_request "GET" "/api/voice/status" []]).
Proof.
  pose proof (polls_contained s) as (HD & HE & HS).
  pose proof (actions_contained s) as (H1 & H2 & H3 & H4 & H5 & H6 & H7).
  split.
  { unfold contained. repeat split; intros; exists tt; auto. }
  split.
  { intros f. repeat split; reflexivity. }
  split.
  { intros m. repeat split; reflexivity. }
  split.
  { intros f m net. unfold testCommand, bind, get.
    cbn [completion final effects app].
    destruct (JS.truthy (JS.trim (testCommandInput s))); cbn [negb].
    - split; reflexivity.
    - reflexivity. }
  split.
  { intros f. repeat split; reflexivity. }
  intros m. repeat split; reflexivity.
Qed.

End Failures.

(** ** Scenarios *)

Example trim_examples :
  JS.trim "  turn on the lamp " = "turn on the lamp" /\
  JS.trim (JS.nl ++ "   " ++ JS.nl) = EmptyString /\
  JS.trim "a  b" = "a  b".
Proof. repeat split; reflexivity. Qed.

Example slice_examples :
  JS.slice (-2) [1; 2; 3]%nat = [2; 3]%nat /\
  JS.slice (-10) [1; 2]%nat = [1; 2]%nat /\
  JS.slice 1 [1; 2; 3]%nat = [2; 3]%nat.
Proof. repeat split; reflexivity. Qed.

Example distinct_example :
  JS.distinct ["Kitchen"; "Bedroom"; "Kitchen"; "Hall"; "Bedroom"] =
    ["Kitchen"; "Bedroom"; "Hall"].
Proof. reflexivity. Qed.

(** A blank test command: the warning and nothing else. *)
Example blank_test_command (net : Fetched string) :
  effects (testCommand net (set_testCommandInput "   " start_page)) =
    [notification "Please enter a command to test" "warning"].
Proof. reflexivity. Qed.

(** Start, then a status poll that finds the assistant listening; stop,
    then a status poll that finds it inactive. *)
Example start_poll_stop_poll :
  let started := final (startAssistant (resolved (ok "started")) start_page) in
  let polled :=
    final (checkAssistantStatus (resolved (ok (mkStatus true true))) started) in
  let stopped := final (stopAssistant (resolved (ok "stopped")) polled) in
  let offline :=
    final (checkAssistantStatus (resolved (ok (mkStatus false false))) stopped) in
  statusText polled = "Listening..." /\
  statusText offline = "Offline" /\
  disabled (startBtn offline) = false /\
  isAssistantActive offline = false.
Proof. repeat split; reflexivity. Qed.

(** Twelve transcriptions among other events: the ten latest are shown. *)
Example twelve_transcriptions :
  let partial n := mkEvent "transcription_partial" "..." None (js_number n) in
  let other := mkEvent "command_result" "done" None (js_number "0") in
  let fetched :=
    [partial "1"; other; partial "2"; partial "3"; partial "4"; partial "5";
     partial "6"; other; partial "7"; partial "8"; partial "9"; partial "10";
     partial "11"; partial "12"] in
  map timestamp (transcriptionView (set_events fetched start_page)) =
    map js_number ["3"; "4"; "5"; "6"; "7"; "8"; "9"; "10"; "11"; "12"].
Proof. reflexivity. Qed.

(** * Further properties of the client *)

(** ** Client-side filtering *)

Lemma truthy_false_iff (x : string) : JS.truthy x = false <-> x = EmptyString.
Proof. destruct x; cbn; split; intros E; congruence. Qed.

Lemma truthy_true_iff (x : string) : JS.truthy x = true <-> x <> EmptyString.
Proof. destruct x; cbn; split; intros E; congruence. Qed.

Lemma filter_nothing {A : Type} (p : A -> bool) (l : list A) :
  (forall x, In x l -> p x = false) -> filter p l = [].
Proof.
  induction l as [|x l IH]; intros Hp; cbn; [reflexivity|].
  rewrite (Hp x (or_introl eq_refl)). apply IH.
  intros y Hy. apply Hp. now right.
Qed.

Lemma getFilteredDevices_absent_location (s : UI) :
  JS.truthy (value (locationFilter s)) = true ->
  (forall d, In d (devices s) -> location d <> value (locationFilter s)) ->
  getFilteredDevices s = [].
Proof.
  intros Hsel Habsent. unfold getFilteredDevices. rewrite Hsel.
  rewrite (filter_nothing _ (devices s)).
  - destruct (JS.truthy (value (typeFilter s))); reflexivity.
  - intros d Hd. apply String.eqb_neq. now apply Habsent.
Qed.

(** X1. With a location selected that no stored device has, no device
    passes the filter and the grid shows the no-devices placeholder,
    however many devices are stored. *)
Theorem absent_location_shows_no_devices (s : UI) :
  JS.truthy (value (locationFilter s)) = true ->
  (forall d, In d (devices s) -> location d <> value (locationFilter s)) ->
  getFilteredDevices s = [] /\
  devicesGrid (final (renderDevices s)) = no_devices_html.
Proof.
  intros Hsel Habsent.
  pose proof (getFilteredDevices_absent_location s Hsel Habsent) as E.
  split; [exact E|].
  rewrite renderDevices_final. cbn [devicesGrid set_devicesGrid].
  unfold devicesGrid_html. now rewrite E.
Qed.

(** X2. The devices that pass the filters are exactly the stored devices
    that match the selected location (when one is selected) and the
    selected type (when one is selected), in the order in which they are
    stored. *)
Theorem getFilteredDevices_spec (s : UI) :
  (forall d,
     In d (getFilteredDevices s) <->
     In d (devices s) /\
     (value (locationFilter s) = EmptyString \/
      location d = value (locationFilter s)) /\
     (value (typeFilter s) = EmptyString \/
      device_type d = value (typeFilter s))) /\
  Subsequence (getFilteredDevices s) (devices s).
Proof.
  unfold getFilteredDevices.
  destruct (JS.truthy (value (locationFilter s))) eqn:El;
    destruct (JS.truthy (value (typeFilter s))) eqn:Et.
  all: try apply truthy_true_iff in El; try apply truthy_false_iff in El.
  all: try apply truthy_true_iff in Et; try apply truthy_false_iff in Et.
  all: split.
  all: try (intros d; rewrite ?filter_In, ?String.eqb_eq; tauto).
  - eapply Subsequence_trans; apply Subsequence_filter.
  - apply Subsequence_filter.
  - apply Subsequence_filter.
  - apply Subsequence_refl.
Qed.

Section FurtherEvents.

Context `{Platform}.

(** X3. A successful event load stores the fetched list as it came, and
    the activity log then shows the fetched events whose type is the
    selected one (all of them when no type is selected), in fetch order,
    or the no-events placeholder when there is none to show. *)
Theorem loadEvents_shows_filtered_fetch (fetched : list Event) (s : UI) :
  events (final (loadEvents (resolved (ok fetched)) s)) = fetched /\
  (forall e,
     In e (getFilteredEvents (set_events fetched s)) <->
     In e fetched /\ (eventFilter s = EmptyString \/ type e = eventFilter s)) /\
  Subsequence (getFilteredEvents (set_events fetched s)) fetched /\
  activityLog (final (loadEvents (resolved (ok fetched)) s)) =
    match getFilteredEvents (set_events fetched s) with
    | [] => no_events_html
    | shown => JS.join (map activity_item shown)
    end.
Proof.
  rewrite loadEvents_ok_final, updateTranscription_final, renderEvents_final.
  split; [reflexivity|].
  unfold getFilteredEvents. cbn [eventFilter events set_events].
  destruct (JS.truthy (eventFilter s)) eqn:Ef; cbn [negb].
  - apply truthy_true_iff in Ef. repeat split.
    + apply filter_In in H0. tauto.
    + apply filter_In in H0. right. now apply String.eqb_eq.
    + intros [Hin [Hf|Hf]]; [contradiction|].
      apply filter_In. split; [assumption|now apply String.eqb_eq].
    + apply Subsequence_filter.
    + cbn [activityLog set_transcriptionDisplay set_activityLog].
      unfold activityLog_html, getFilteredEvents.
      cbn [eventFilter events set_events].
      apply truthy_true_iff in Ef. now rewrite Ef.
  - apply truthy_false_iff in Ef. repeat split.
    + assumption.
    + now left.
    + tauto.
    + apply Subsequence_refl.
    + cbn [activityLog set_transcriptionDisplay set_activityLog].
      unfold activityLog_html, getFilteredEvents.
      cbn [eventFilter events set_events].
      apply truthy_false_iff in Ef. now rewrite Ef.
Qed.

End FurtherEvents.

(** A concrete instance of X1: Kitchen is selected and the stored devices
    are replaced by a single Bedroom device. *)
Lemma absent_location_witness :
  JS.truthy (value (locationFilter
     (set_devices [mkDevice "dev2" "Fan" "fan" "Bedroom" "on"] kitchen_page))) = true /\
  devicesGrid (final (renderDevices
     (set_devices [mkDevice "dev2" "Fan" "fan" "Bedroom" "on"] kitchen_page))) =
    no_devices_html.
Proof.
  split; [reflexivity|].
  apply (absent_location_shows_no_devices
           (set_devices [mkDevice "dev2" "Fan" "fan" "Bedroom" "on"] kitchen_page)).
  - reflexivity.
  - intros d [<-|[]]. vm_compute. discriminate.
Defined.

(** ** Start and stop *)

Section FurtherActions.

Context `{Platform}.

(** X4. Whatever the answer, the start action ends with the start button
    enabled and showing its idle icon, and the stop action does the same
    for the stop button: the [finally] block releases the button after the
    branch taken.  After a successful start or stop both buttons are
    therefore enabled. *)
Theorem loading_bracket_releases_button (net : Fetched string) (s : UI) :
  startBtn (final (startAssistant net s)) = released StartBtn (startBtn s) /\
  stopBtn (final (stopAssistant net s)) = released StopBtn (stopBtn s) /\
  (forall p,
     disabled (startBtn (final (startAssistant (resolved (ok p)) s))) = false /\
     disabled (stopBtn (final (startAssistant (resolved (ok p)) s))) = false /\
     disabled (startBtn (final (stopAssistant (resolved (ok p)) s))) = false /\
     disabled (stopBtn (final (stopAssistant (resolved (ok p)) s))) = false).
Proof.
  split; [|split].
  - destruct net as [f|[p|m]]; cbn; unfold released, idle_icon;
      destruct (icon (startBtn s)); reflexivity.
  - destruct net as [f|[p|m]]; cbn; unfold released, idle_icon;
      destruct (icon (stopBtn s)); reflexivity.
  - intros p. repeat split; reflexivity.
Qed.

(** X5. A start or stop that fails, by a network failure or by an
    application error, changes nothing but its own button, which is
    released: the active flag, the status line and the other button are as
    before. *)
Theorem failed_start_stop_keep_state (s : UI) :
  (forall f, final (startAssistant (failed f) s) =
             set_startBtn (released StartBtn (startBtn s)) s) /\
  (forall m, final (startAssistant (resolved (error_response m)) s) =
             set_startBtn (released StartBtn (startBtn s)) s) /\
  (forall f, final (stopAssistant (failed f) s) =
             set_stopBtn (released StopBtn (stopBtn s)) s) /\
  (forall m, final (stopAssistant (resolved (error_response m)) s) =
             set_stopBtn (released StopBtn (stopBtn s)) s).
Proof.
  repeat split; intros x; cbn; unfold released, idle_icon;
    try (destruct (icon (startBtn s)); reflexivity);
    destruct (icon (stopBtn s)); reflexivity.
Qed.

(** X6. The event poll follows the last writer of the active flag: after a
    successful status check the next run of the event callback requests
    events exactly when the reported status is active; after a successful
    start it requests them, after a successful stop it does not. *)
Theorem event_poll_follows_flag (netE : Fetched (list Event))
    (netS : Fetched Status) (s : UI) :
  (forall st,
     requests (effects (run_callback cb_eventPoll netE netS
                          (final (checkAssistantStatus (resolved (ok st)) s)))) =
     if is_active st
     then [fetch_request "GET" "/api/voice/events?limit=50" []]
     else []) /\
  (forall p,
     requests (effects (run_callback cb_eventPoll netE netS
                          (final (startAssistant (resolved (ok p)) s)))) =
     [fetch_request "GET" "/api/voice/events?limit=50" []]) /\
  (forall p,
     requests (effects (run_callback cb_eventPoll netE netS
                          (final (stopAssistant (resolved (ok p)) s)))) = []).
Proof.
  split; [|split].
  - intros [[|] [|]]; try reflexivity;
      destruct netE as [f|[evs|m]]; reflexivity.
  - intros p. destruct netE as [f|[evs|m]]; reflexivity.
  - intros p. reflexivity.
Qed.

(** X7. A successful clearing of the events empties the stored list,
    shows the no-events placeholder in the activity log whatever event
    type is selected, puts the cleared placeholder in the transcription
    region and shows one info notification.  A clearing that fails leaves
    the state as it was. *)
Theorem clearEvents_outcomes (s : UI) :
  (forall p,
     events (final (clearEvents (resolved (ok p)) s)) = [] /\
     activityLog (final (clearEvents (resolved (ok p)) s)) = no_events_html /\
     transcriptionDisplay (final (clearEvents (resolved (ok p)) s)) =
       cleared_placeholder (isAssistantActive s) /\
     notifications (effects (clearEvents (resolved (ok p)) s)) =
       [notification "Events cleared" "info"]) /\
  (forall f, final (clearEvents (failed f) s) = s) /\
  (forall m, final (clearEvents (resolved (error_response m)) s) = s).
Proof.
  split; [|split; intros x; reflexivity].
  intros p.
  assert (E : final (clearEvents (resolved (ok p)) s) =
              final (clearTranscription (final (renderEvents (set_events [] s)))))
    by reflexivity.
  rewrite E, renderEvents_final.
  assert (Elog : activityLog_html (set_events [] s) = no_events_html).
  { unfold activityLog_html, getFilteredEvents. cbn [events set_events eventFilter].
    destruct (JS.truthy (eventFilter s)); reflexivity. }
  rewrite Elog. repeat split; reflexivity.
Qed.

End FurtherActions.

(** ** Device actions *)

Lemma get_absent (k : string) (members : list (string * string)) :
  ~ In k (map fst members) -> JS.get k members = None.
Proof.
  induction members as [|[k' v] rest IH]; cbn; intros Hk; [reflexivity|].
  rewrite IH by tauto.
  destruct (String.eqb_spec k' k) as [->|Hne]; [tauto|reflexivity].
Qed.

Lemma set_property_names (k v x : string) (obj : list (string * string)) :
  In x (map fst (JS.set_property k v obj)) <-> x = k \/ In x (map fst obj).
Proof.
  induction obj as [|[k' v'] rest IH]; cbn.
  - intuition.
  - destruct (String.eqb_spec k' k) as [->|Hne]; cbn.
    + intuition.
    + rewrite IH. intuition.
Qed.

Lemma set_property_NoDup (k v : string) (obj : list (string * string)) :
  NoDup (map fst obj) -> NoDup (map fst (JS.set_property k v obj)).
Proof.
  induction obj as [|[k' v'] rest IH]; cbn; intros Hnd.
  - constructor; [intros []|constructor].
  - inversion Hnd as [|x l Hnotin Hrest]; subst.
    destruct (String.eqb_spec k' k) as [->|Hne]; cbn.
    + constructor; assumption.
    + constructor; [|apply IH; assumption].
      rewrite set_property_names. intros [E|Hin]; [congruence|contradiction].
Qed.

Lemma get_set_property (k k' v : string) (obj : list (string * string)) :
  NoDup (map fst obj) ->
  JS.get k (JS.set_property k' v obj) =
    if String.eqb k' k then Some v else JS.get k obj.
Proof.
  induction obj as [|[a b] rest IH]; cbn; intros Hnd.
  - destruct (String.eqb k' k); reflexivity.
  - inversion Hnd as [|x l Hnotin Hrest]; subst.
    destruct (String.eqb_spec a k') as [->|Hne]; cbn.
    + destruct (String.eqb_spec k' k) as [->|Hk].
      * now rewrite (get_absent k rest Hnotin).
      * reflexivity.
    + rewrite (IH Hrest).
      destruct (String.eqb_spec k' k) as [->|Hk]; [reflexivity|].
      reflexivity.
Qed.

(** A member of the spread object has the value [props] gives it, and
    otherwise the one [base] gives it. *)
Lemma get_spread (k : string) (props base : list (string * string)) :
  NoDup (map fst base) ->
  JS.get k (JS.spread base props) =
    match JS.get k props with
    | Some v => Some v
    | None => JS.get k base
    end.
Proof.
  unfold JS.spread. revert base.
  induction props as [|[k' v] rest IH]; intros base Hnd; cbn; [reflexivity|].
  rewrite IH by (apply set_property_NoDup; assumption).
  destruct (JS.get k rest); [reflexivity|].
  rewrite get_set_property by assumption.
  destruct (String.eqb k' k); reflexivity.
Qed.

(** X8. A successful device control changes the state only through the
    device refresh that follows it, after one success notification with
    the server's message; when that refresh fails on the network a second
    notification follows.  A control that fails leaves the state as it was
    and issues no refresh.  The body of the request is the object
    [{ action, ...params }]: its member [action] is the one of [params]
    when [params] has one and the action argument otherwise, every other
    member is the one of [params], and without parameters the body is the
    action alone. *)
Theorem controlDevice_outcomes (deviceId action : string)
    (params : list (string * string)) (s : UI) :
  (forall msg netD,
     final (controlDevice deviceId action params (resolved (ok msg)) netD s) =
       final (loadDevices netD s) /\
     effects (controlDevice deviceId action params (resolved (ok msg)) netD s) =
       ([fetch_request "POST" ("/api/devices/" ++ deviceId ++ "/control")
           (JS.spread [("action", action)] params);
         notification msg "success"] ++ effects (loadDevices netD s))%list) /\
  (forall msg f,
     notifications
       (effects (controlDevice deviceId action params (resolved (ok msg)) (failed f) s)) =
       [notification msg "success"; notification "Failed to load devices" "error"]) /\
  (forall f netD,
     final (controlDevice deviceId action params (failed f) netD s) = s /\
     requests (effects (controlDevice deviceId action params (failed f) netD s)) =
       [fetch_request "POST" ("/api/devices/" ++ deviceId ++ "/control")
          (JS.spread [("action", action)] params)]) /\
  (forall m netD,
     final (controlDevice deviceId action params (resolved (error_response m)) netD s) = s /\
     requests
       (effects (controlDevice deviceId action params (resolved (error_response m)) netD s)) =
       [fetch_request "POST" ("/api/devices/" ++ deviceId ++ "/control")
          (JS.spread [("action", action)] params)]) /\
  (forall k,
     JS.get k (JS.spread [("action", action)] params) =
       match JS.get k params with
       | Some v => Some v
       | None => if String.eqb "action" k then Some action else None
       end) /\
  JS.spread [("action", action)] [] = [("action", action)].
Proof.
  split; [|split; [|split; [|split; [|split]]]].
  - intros msg [f|[p|m]]; split; reflexivity.
  - intros msg f. reflexivity.
  - intros f netD. split; reflexivity.
  - intros m netD. split; reflexivity.
  - intros k. rewrite get_spread.
    + reflexivity.
    + cbn. constructor; [intros []|constructor].
  - reflexivity.
Qed.

(** The grid and the details dialog call [controlDevice] without
    parameters; called with a parameter named [action], the request carries
    that parameter in place of the action argument. *)
Example controlDevice_action_parameter (netD : Fetched (list (string * Device))) :
  requests (effects (controlDevice "dev1" "turn_on" []
                       (failed fetch_rejected) netD start_page)) =
    [fetch_request "POST" "/api/devices/dev1/control" [("action", "turn_on")]] /\
  requests (effects (controlDevice "dev1" "turn_on"
                       [("action", "turn_off"); ("level", "5")]
                       (failed fetch_rejected) netD start_page)) =
    [fetch_request "POST" "/api/devices/dev1/control"
       [("action", "turn_off"); ("level", "5")]].
Proof. split; reflexivity. Qed.

(** X9. A successful add-device closes the add dialog, resets its form and
    then refreshes the device list.  An add that fails keeps the dialog and
    the form as they are, so the user can submit again, and issues no
    refresh. *)
Theorem handleAddDevice_outcomes (deviceData : list (string * string)) (s : UI) :
  (forall p netD,
     final (handleAddDevice deviceData (resolved (ok p)) netD s) =
       final (loadDevices netD (set_addDeviceModal false s)) /\
     effects (handleAddDevice deviceData (resolved (ok p)) netD s) =
       ([fetch_request "POST" "/api/devices/add" deviceData;
         notification "Device added successfully" "success";
         form_reset] ++ effects (loadDevices netD (set_addDeviceModal false s)))%list) /\
  (forall f netD,
     final (handleAddDevice deviceData (failed f) netD s) = s /\
     effects (handleAddDevice deviceData (failed f) netD s) =
       [fetch_request "POST" "/api/devices/add" deviceData;
        console_error "Error adding device:";
        notification "Failed to add device" "error"]) /\
  (forall m netD,
     final (handleAddDevice deviceData (resolved (error_response m)) netD s) = s /\
     effects (handleAddDevice deviceData (resolved (error_response m)) netD s) =
       [fetch_request "POST" "/api/devices/add" deviceData;
        notification m "error"]).
Proof.
  split; [|split].
  - intros p [f|[q|m]]; split; reflexivity.
  - intros f netD. split; reflexivity.
  - intros m netD. split; reflexivity.
Qed.

(** X10. Declining the confirmation makes remove-device do nothing at
    all: no request, no notification, no change.  Once confirmed, a
    successful removal closes the details dialog and refreshes the device
    list; a removal that fails leaves the state, and with it the open
    dialog, as it was. *)
Theorem removeDevice_outcomes (deviceId : string) (s : UI) :
  (forall net netD,
     effects (removeDevice deviceId false net netD s) = [] /\
     final (removeDevice deviceId false net netD s) = s) /\
  (forall p netD,
     final (removeDevice deviceId true (resolved (ok p)) netD s) =
       final (loadDevices netD (set_deviceModal false s)) /\
     effects (removeDevice deviceId true (resolved (ok p)) netD s) =
       ([fetch_request "DELETE" ("/api/devices/" ++ deviceId) [];
         notification "Device removed successfully" "success"] ++
        effects (loadDevices netD (set_deviceModal false s)))%list) /\
  (forall f netD,
     final (removeDevice deviceId true (failed f) netD s) = s /\
     requests (effects (removeDevice deviceId true (failed f) netD s)) =
       [fetch_request "DELETE" ("/api/devices/" ++ deviceId) []]) /\
  (forall m netD,
     final (removeDevice deviceId true (resolved (error_response m)) netD s) = s /\
     requests
       (effects (removeDevice deviceId true (resolved (error_response m)) netD s)) =
       [fetch_request "DELETE" ("/api/devices/" ++ deviceId) []]).
Proof.
  split; [|split; [|split]].
  - intros net netD. split; reflexivity.
  - intros p [f|[q|m]]; split; reflexivity.
  - intros f netD. split; reflexivity.
  - intros m netD. split; reflexivity.
Qed.

(** X15. A device refresh is drawn with the location that was selected
    before it: when none of the fetched devices is at that location the
    grid shows the no-devices placeholder, although devices were fetched,
    and the location filter is back at show-all. *)
Theorem refresh_under_stale_filter (fetched : list (string * Device)) (s : UI) :
  JS.truthy (value (locationFilter s)) = true ->
  (forall d, In d (JS.Object_values fetched) ->
             location d <> value (locationFilter s)) ->
  devicesGrid (after_device_fetch fetched s) = no_devices_html /\
  devices (after_device_fetch fetched s) = JS.Object_values fetched /\
  value (locationFilter (after_device_fetch fetched s)) = EmptyString.
Proof.
  intros Hsel Habsent. unfold after_device_fetch.
  rewrite loadDevices_ok_final, updateFilters_final, renderDevices_final.
  cbn [devicesGrid devices locationFilter set_typeFilter set_locationFilter
       set_devicesGrid set_devices].
  split; [|split; [reflexivity|apply set_options_value]].
  unfold devicesGrid_html.
  rewrite (getFilteredDevices_absent_location
             (set_devices (JS.Object_values fetched) s) Hsel Habsent).
  reflexivity.
Qed.

(** A concrete instance of X15: Kitchen is selected and the refresh
    returns a single Bedroom device. *)
Lemma refresh_under_stale_filter_witness :
  JS.truthy (value (locationFilter kitchen_page)) = true /\
  devicesGrid (after_device_fetch
                 [("dev2", mkDevice "dev2" "Fan" "fan" "Bedroom" "on")] kitchen_page) =
    no_devices_html.
Proof.
  split; [reflexivity|].
  apply (refresh_under_stale_filter
           [("dev2", mkDevice "dev2" "Fan" "fan" "Bedroom" "on")] kitchen_page).
  - reflexivity.
  - intros d [<-|[]]. vm_compute. discriminate.
Defined.

(** ** The test command, continued *)

(** X11. For a command that is not blank, the input box is emptied and an
    event reload is scheduled 500 ms later exactly when the server reports
    success; on a network failure or an application error the text stays in
    the box and nothing is scheduled.  In every case the test button ends
    released. *)
Theorem testCommand_keeps_text_on_failure (s : UI) :
  JS.truthy (JS.trim (testCommandInput s)) = true ->
  (forall p,
     testCommandInput (final (testCommand (resolved (ok p)) s)) = EmptyString /\
     timeouts (effects (testCommand (resolved (ok p)) s)) =
       [setTimeout cb_loadEvents 500]) /\
  (forall f,
     testCommandInput (final (testCommand (failed f) s)) = testCommandInput s /\
     timeouts (effects (testCommand (failed f) s)) = []) /\
  (forall m,
     testCommandInput (final (testCommand (resolved (error_response m)) s)) =
       testCommandInput s /\
     timeouts (effects (testCommand (resolved (error_response m)) s)) = []) /\
  (forall net, testBtn (final (testCommand net s)) = released TestBtn (testBtn s)).
Proof.
  intros Hcmd. unfold testCommand, bind, get.
  cbn [completion final effects app]. rewrite Hcmd. cbn [negb].
  split; [|split; [|split]].
  - intros p. split; reflexivity.
  - intros f. split; reflexivity.
  - intros m. split; reflexivity.
  - intros [f|[p|m]]; cbn; unfold released, idle_icon;
      destruct (icon (testBtn s)); reflexivity.
Qed.

(** A concrete instance of X11: a command typed into the start page. *)
Lemma testCommand_keeps_text_witness :
  JS.truthy (JS.trim (testCommandInput
     (set_testCommandInput " turn on the lamp " start_page))) = true /\
  testCommandInput
    (final (testCommand (failed fetch_rejected)
              (set_testCommandInput " turn on the lamp " start_page))) =
    " turn on the lamp ".
Proof.
  split; [reflexivity|].
  exact (proj1 (proj1 (proj2
           (testCommand_keeps_text_on_failure
              (set_testCommandInput " turn on the lamp " start_page) eq_refl))
           fetch_rejected)).
Defined.

(** ** The initial load *)

Section FurtherLoads.

Context `{Platform}.

(** X13. The initial load issues its three requests, devices, then
    events, then status, whatever each of them returns, and completes
    normally: a failed load does not keep the later ones from running. *)
Theorem loadInitialData_requests netD netE netS (s : UI) :
  requests (effects (loadInitialData netD netE netS s)) =
    [fetch_request "GET" "/api/devices/" [];
     fetch_request "GET" "/api/voice/events?limit=50" [];
     fetch_request "GET" "/api/voice/status" []] /\
  completion (loadInitialData netD netE netS s) = Normal tt.
Proof.
  unfold loadInitialData, bind.
  destruct netD as [fD|[devs|mD]], netE as [fE|[evs|mE]],
           netS as [fS|[[[|] [|]]|mS]]; split; reflexivity.
Qed.

End FurtherLoads.

(** ** Who writes the stored data *)

Section Writers.

Context `{Platform}.

Lemma loadDevices_keeps (net : Fetched (list (string * Device))) (s : UI) :
  isAssistantActive (final (loadDevices net s)) = isAssistantActive s /\
  events (final (loadDevices net s)) = events s.
Proof.
  destruct net as [f|[p|m]]; try (split; reflexivity).
  rewrite loadDevices_ok_final, updateFilters_final, renderDevices_final.
  split; reflexivity.
Qed.

Lemma loadEvents_keeps (net : Fetched (list Event)) (s : UI) :
  isAssistantActive (final (loadEvents net s)) = isAssistantActive s /\
  devices (final (loadEvents net s)) = devices s.
Proof.
  destruct net as [f|[p|m]]; try (split; reflexivity).
  rewrite loadEvents_ok_final, updateTranscription_final, renderEvents_final.
  split; reflexivity.
Qed.

Lemma clearEvents_keeps (net : Fetched string) (s : UI) :
  isAssistantActive (final (clearEvents net s)) = isAssistantActive s /\
  devices (final (clearEvents net s)) = devices s.
Proof.
  destruct net as [f|[p|m]]; try (split; reflexivity).
  change (final (clearEvents (resolved (ok p)) s))
    with (final (clearTranscription (final (renderEvents (set_events [] s))))).
  rewrite renderEvents_final. split; reflexivity.
Qed.

Lemma testCommand_keeps (net : Fetched string) (s : UI) :
  isAssistantActive (final (testCommand net s)) = isAssistantActive s /\
  devices (final (testCommand net s)) = devices s /\
  events (final (testCommand net s)) = events s.
Proof.
  unfold testCommand, bind, get. cbn [completion final effects app].
  destruct (JS.truthy (JS.trim (testCommandInput s))); cbn [negb].
  - destruct net as [f|[p|m]]; repeat split; reflexivity.
  - repeat split; reflexivity.
Qed.

Lemma device_action_final (deviceId action : string)
    (params deviceData : list (string * string)) (p : string)
    (netD : Fetched (list (string * Device))) (s : UI) :
  final (controlDevice deviceId action params (resolved (ok p)) netD s) =
    final (loadDevices netD s) /\
  final (handleAddDevice deviceData (resolved (ok p)) netD s) =
    final (loadDevices netD (set_addDeviceModal false s)) /\
  final (removeDevice deviceId true (resolved (ok p)) netD s) =
    final (loadDevices netD (set_deviceModal false s)).
Proof. destruct netD as [f|[q|m]]; repeat split; reflexivity. Qed.

(** X14. Each stored field has its own writers.  The active flag is
    written only by start, stop and the status check: the device load, the
    event load, the test command, the clearing of events and the three
    device actions leave it alone whatever their requests return.  The
    device list is written only by the device load, alone or as the refresh
    after a device action; the event list only by the event load and the
    clearing of events. *)
Theorem stored_fields_have_their_writers (s : UI) :
  ((forall net, isAssistantActive (final (loadDevices net s)) = isAssistantActive s) /\
   (forall net, isAssistantActive (final (loadEvents net s)) = isAssistantActive s) /\
   (forall net, isAssistantActive (final (testCommand net s)) = isAssistantActive s) /\
   (forall net, isAssistantActive (final (clearEvents net s)) = isAssistantActive s) /\
   (forall i a ps net netD,
      isAssistantActive (final (controlDevice i a ps net netD s)) =
      isAssistantActive s) /\
   (forall d net netD,
      isAssistantActive (final (handleAddDevice d net netD s)) =
      isAssistantActive s) /\
   (forall i c net netD,
      isAssistantActive (final (removeDevice i c net netD s)) =
      isAssistantActive s)) /\
  ((forall net, devices (final (loadEvents net s)) = devices s) /\
   (forall net, devices (final (checkAssistantStatus net s)) = devices s) /\
   (forall net, devices (final (startAssistant net s)) = devices s) /\
   (forall net, devices (final (stopAssistant net s)) = devices s) /\
   (forall net, devices (final (testCommand net s)) = devices s) /\
   (forall net, devices (final (clearEvents net s)) = devices s)) /\
  ((forall net, events (final (loadDevices net s)) = events s) /\
   (forall net, events (final (checkAssistantStatus net s)) = events s) /\
   (forall net, events (final (startAssistant net s)) = events s) /\
   (forall net, events (final (stopAssistant net s)) = events s) /\
   (forall net, events (final (testCommand net s)) = events s) /\
   (forall i a ps net netD,
      events (final (controlDevice i a ps net netD s)) = events s) /\
   (forall d net netD,
      events (final (handleAddDevice d net netD s)) = events s) /\
   (forall i c net netD,
      events (final (removeDevice i c net netD s)) = events s)).
Proof.
  split; [|split].
  - split; [intros net; apply loadDevices_keeps|].
    split; [intros net; apply loadEvents_keeps|].
    split; [intros net; apply testCommand_keeps|].
    split; [intros net; apply clearEvents_keeps|].
    split; [|split].
    + intros i a ps [f|[p|m]] netD; try reflexivity.
      destruct (device_action_final i a ps [] p netD s) as (E & _ & _).
      rewrite E. apply loadDevices_keeps.
    + intros d [f|[p|m]] netD; try reflexivity.
      destruct (device_action_final EmptyString EmptyString [] d p netD s)
        as (_ & E & _).
      rewrite E. apply (loadDevices_keeps netD (set_addDeviceModal false s)).
    + intros i [|] net netD; [|reflexivity].
      destruct net as [f|[p|m]]; try reflexivity.
      destruct (device_action_final i EmptyString [] [] p netD s) as (_ & _ & E).
      rewrite E. apply (loadDevices_keeps netD (set_deviceModal false s)).
  - split; [intros net; apply loadEvents_keeps|].
    split; [intros [f|[[[|] [|]]|m]]; reflexivity|].
    split; [intros [f|[p|m]]; reflexivity|].
    split; [intros [f|[p|m]]; reflexivity|].
    split; [intros net; apply testCommand_keeps|].
    intros net; apply clearEvents_keeps.
  - split; [intros net; apply loadDevices_keeps|].
    split; [intros [f|[[[|] [|]]|m]]; reflexivity|].
    split; [intros [f|[p|m]]; reflexivity|].
    split; [intros [f|[p|m]]; reflexivity|].
    split; [intros net; apply testCommand_keeps|].
    split; [|split].
    + intros i a ps [f|[p|m]] netD; try reflexivity.
      destruct (device_action_final i a ps [] p netD s) as (E & _ & _).
      rewrite E. apply loadDevices_keeps.
    + intros d [f|[p|m]] netD; try reflexivity.
      destruct (device_action_final EmptyString EmptyString [] d p netD s)
        as (_ & E & _).
      rewrite E. apply (loadDevices_keeps netD (set_addDeviceModal false s)).
    + intros i [|] net netD; [|reflexivity].
      destruct net as [f|[p|m]]; try reflexivity.
      destruct (device_action_final i EmptyString [] [] p netD s) as (_ & _ & E).
      rewrite E. apply (loadDevices_keeps netD (set_deviceModal false s)).
Qed.

End Writers.

(** ** Repeating a reconciliation *)

Section FurtherIdempotence.

Context `{Platform}.

(** X16. Reconciling the same snapshot is stable from the second run on,
    without any condition on the state before the first run: a third run
    changes nothing that the second one left. *)
Theorem reconcile_stable_from_second_run (snap : Snapshot) (s : UI) :
  reconcile snap (reconcile snap (reconcile snap s)) =
  reconcile snap (reconcile snap s).
Proof.
  pose proof (reconcile_settles snap s) as [Hshown Hflag].
  generalize dependent (reconcile snap s). intros s1 Hshown Hflag.
  rewrite !reconcile_final, !checkAssistantStatus_ok_final,
    !updateTranscription_final, !renderEvents_final, !updateFilters_final,
    !renderDevices_final.
  unfold devicesGrid_html.
  rewrite Hshown.
  rewrite getFilteredDevices_show_all; [| apply set_options_value ..].
  apply UI_ext; simpl_fields; try reflexivity.
  all: unfold transcriptionDisplay_html, activityLog_html, getFilteredEvents;
    simpl_fields; try reflexivity.
  destruct (filter is_transcription (snap_events snap)) as [|e tr];
    [|reflexivity].
  destruct Hflag as [Hflag|Hflag]; [|contradiction].
  now rewrite Hflag.
Qed.

(** X17. Taken alone, a successful event load and a successful status
    check are idempotent on the same answer, from every state and for every
    filter selection. *)
Theorem event_and_status_loads_idempotent (fetched : list Event) (st : Status)
    (s : UI) :
  final (loadEvents (resolved (ok fetched))
           (final (loadEvents (resolved (ok fetched)) s))) =
    final (loadEvents (resolved (ok fetched)) s) /\
  final (checkAssistantStatus (resolved (ok st))
           (final (checkAssistantStatus (resolved (ok st)) s))) =
    final (checkAssistantStatus (resolved (ok st)) s).
Proof.
  split; [apply loadEvents_twice|apply checkAssistantStatus_twice].
Qed.

(** X18. How many notifications an action shows.  Start, stop and the
    clearing of events show exactly one, whatever the answer.  Control and
    add device show one, and a second one exactly when the action succeeded
    and the device refresh after it failed on the network.  Remove device
    shows none when the confirmation is declined and otherwise counts like
    control and add. *)
Theorem notifications_per_action (s : UI) :
  (forall net, count_notifications (effects (startAssistant net s)) = 1%nat) /\
  (forall net, count_notifications (effects (stopAssistant net s)) = 1%nat) /\
  (forall net, count_notifications (effects (clearEvents net s)) = 1%nat) /\
  (forall i a ps net netD,
     count_notifications (effects (controlDevice i a ps net netD s)) =
     match net, netD with
     | resolved (ok _), failed _ => 2%nat
     | _, _ => 1%nat
     end) /\
  (forall d net netD,
     count_notifications (effects (handleAddDevice d net netD s)) =
     match net, netD with
     | resolved (ok _), failed _ => 2%nat
     | _, _ => 1%nat
     end) /\
  (forall i c net netD,
     count_notifications (effects (removeDevice i c net netD s)) =
     if c then
       match net, netD with
       | resolved (ok _), failed _ => 2%nat
       | _, _ => 1%nat
       end
     else 0%nat).
Proof.
  split; [intros [f|[p|m]]; reflexivity|].
  split; [intros [f|[p|m]]; reflexivity|].
  split; [intros [f|[p|m]]; reflexivity|].
  split; [|split].
  - intros i a ps [f|[p|m]] [fD|[pD|mD]]; reflexivity.
  - intros d [f|[p|m]] [fD|[pD|mD]]; reflexivity.
  - intros i [|] [f|[p|m]] [fD|[pD|mD]]; reflexivity.
Qed.

End FurtherIdempotence.
